(** * Global Entry Strategy Dashboard: a model of the React components

    The dashboard is a tree of function components ([App], [StrategySelector],
    [WeightAdjuster], [ResultsScreen], [ScenarioTabs], [ResultsTable],
    [CountryDetailCard]) over two hand-written lookup tables.  Each component
    is embedded as the function from its props and hook state to the content it
    renders; each handler as a transformer of the hook state.

    Conventions of the embedding:
    - a JavaScript [number] is the exact rational denoted by its decimal
      literal; the only arithmetic the components perform is a division by
      1000 and decimal formatting ([toFixed]);
    - [null] and [undefined] are both [None];
    - an object used as a dictionary is a [gmap string _];
    - [className] and [style] attributes are left out of the rendered content,
      but every condition the source evaluates to choose them is kept as a
      boolean (or a small enumeration);
    - an [onClick] closure is represented by the argument it hands to the
      callback prop. *)

From Stdlib Require Import ZArith QArith Qround Qabs DecimalString Floats Sorted.
From stdpp Require Import gmap strings list fin_maps.

Local Open Scope string_scope.

(** ** JavaScript primitives *)

Abbreviation number := Q.

(** Outcome of evaluating a component body: a value, or the [TypeError] raised
    by reading a property of [undefined]. *)
Inductive completion (A : Type) : Type :=
| Normal (a : A)
| ThrowTypeError.
Arguments Normal {A} a.
Arguments ThrowTypeError {A}.

#[global] Instance completion_ret : MRet completion := fun A a => Normal a.

#[global] Instance completion_bind : MBind completion := fun A B k c =>
  match c with
  | Normal a => k a
  | ThrowTypeError => ThrowTypeError
  end.

(** [o.find(...)] or [o.rc] where [o] came from a dictionary lookup. *)
Definition deref {A : Type} (o : option A) : completion A :=
  match o with
  | Some a => Normal a
  | None => ThrowTypeError
  end.

(** Decimal digits of a non-negative integer. *)
Definition digits (n : Z) : string :=
  NilZero.string_of_uint (N.to_uint (Z.to_N n)).

Fixpoint zeros (k : nat) : string :=
  match k with
  | O => ""
  | S k' => "0" +:+ zeros k'
  end.

(** The integer [n] for which [n / 10^f - x] is closest to zero, the larger one
    on a tie (Number.prototype.toFixed, step 10.a), for [0 <= x]. *)
Definition roundFixed (f : nat) (x : number) : Z :=
  Qfloor (x * inject_Z (10 ^ Z.of_nat f) + (1 # 2)).

(** Number.prototype.toFixed(f) for finite [x] below 1e21. *)
Definition toFixed (f : nat) (x : number) : string :=
  let s := if Qle_bool 0 x then "" else "-" in
  let m := digits (roundFixed f (Qabs x)) in
  let m :=
    match f with
    | O => m
    | S _ =>
        let m := if (String.length m <=? f)%nat
                 then zeros (f + 1 - String.length m) +:+ m else m in
        let k := String.length m in
        String.substring 0 (k - f) m +:+ "." +:+ String.substring (k - f) f m
    end in
  s +:+ m.

(** String.prototype.replace with a string pattern: only the first occurrence
    is replaced (the replacement is a blank, so no [$] pattern is involved). *)
Definition replace (pattern replacement s : string) : string :=
  match String.index 0 pattern s with
  | Some i =>
      String.substring 0 i s +:+ replacement +:+
      String.substring (i + String.length pattern)
                (String.length s - (i + String.length pattern)) s
  | None => s
  end.

(** The double nearest to a decimal literal [a / 10^k]: both operands are
    exact doubles for the literals of this program and IEEE division rounds
    correctly. *)
Definition to_double (x : number) : float :=
  (PrimFloat.of_uint63 (Uint63.of_Z (Qnum x)) /
   PrimFloat.of_uint63 (Uint63.of_Z (Z.pos (Qden x))))%float.

(** ** Records shared by the components *)

(** [interface CountryResult] (ResultsScreen, ResultsTable) and
    [interface CountryDetail] (CountryDetailCard) describe the same objects. *)
Record CountryResult : Type := {
  rank : number;
  iso : string;
  country : string;
  topsisScore : number;
  rcScore : number;
  gdpPerCapita : number;
  digitalInfra : number;
  jobMarket : number;
  description : string
}.

(** ** ScenarioTabs.tsx *)
Module ScenarioTabs.

Record Scenario : Type := { id : string; label : string }.

Definition scenarios : list Scenario :=
  [ {| id := "balanced"; label := "Balanced" |}
  ; {| id := "talent-focused"; label := "Talent-Focused" |}
  ; {| id := "regulation-focused"; label := "Regulation-Focused" |}
  ; {| id := "market-focused"; label := "Market-Focused" |}
  ; {| id := "infra-focused"; label := "Infra-Focused" |}
  ].

(** One [<button>]: its text, whether it is drawn as the active tab, and the
    argument its click hands to [onScenarioChange]. *)
Record Tab : Type := { tab_text : string; tab_active : bool; tab_onClick : string }.

Definition tab_of (selectedScenario : string) (scenario : Scenario) : Tab :=
  {| tab_text := label scenario;
     tab_active := String.eqb selectedScenario (id scenario);
     tab_onClick := id scenario |}.

Definition render (selectedScenario : string) : list Tab :=
  map (tab_of selectedScenario) scenarios.

End ScenarioTabs.

(** ** StrategySelector.tsx *)
Module StrategySelector.

Record Strategy : Type := { id : string; title : string; subtitle : string }.

Definition strategies : list Strategy :=
  [ {| id := "balanced"; title := "Balanced";
       subtitle := "Equal consideration across all factors" |}
  ; {| id := "talent-focused"; title := "Talent-Focused";
       subtitle := "For AI startups that care about hiring" |}
  ; {| id := "regulation-focused"; title := "Regulation-Focused";
       subtitle := "Prioritize favorable regulatory environments" |}
  ; {| id := "market-focused"; title := "Market-Focused";
       subtitle := "Emphasize market size and economic potential" |}
  ; {| id := "infra-focused"; title := "Infra-Focused";
       subtitle := "Optimize for digital infrastructure quality" |}
  ].

Record Choice : Type := {
  opt_title : string;
  opt_subtitle : string;
  opt_selected : bool;
  opt_onClick : string
}.

Definition render (selectedStrategy : string) : list Choice :=
  map (fun strategy =>
         {| opt_title := title strategy;
            opt_subtitle := subtitle strategy;
            opt_selected := String.eqb selectedStrategy (id strategy);
            opt_onClick := id strategy |})
      strategies.

End StrategySelector.

(** ** WeightAdjuster.tsx *)
Module WeightAdjuster.

(** [interface Weight], declared alike in App.tsx and WeightAdjuster.tsx. *)
Record Weight : Type := {
  id : string;
  label : string;
  technicalLabel : string;
  value : number
}.

(** One slider block: the two captions, the number shown before the percent
    sign, the slider's [value] array, and the id its [onValueChange] hands to
    [onWeightChange] together with the new value. *)
Record Slider : Type := {
  sl_label : string;
  sl_technicalLabel : string;
  sl_percent : number;
  sl_value : list number;
  sl_onValueChange : string
}.

Definition render (weights : list Weight) : list Slider :=
  map (fun weight =>
         {| sl_label := label weight;
            sl_technicalLabel := technicalLabel weight;
            sl_percent := value weight;
            sl_value := [value weight];
            sl_onValueChange := id weight |})
      weights.

End WeightAdjuster.

(** ** ResultsTable.tsx *)
Module ResultsTable.

(** The four badge colourings chosen by [result.rank === 1 ? ... ]. *)
Inductive Badge : Type := Gold | Silver | Bronze | Plain.

Definition badge (r : number) : Badge :=
  if Qeq_bool r 1 then Gold
  else if Qeq_bool r 2 then Silver
  else if Qeq_bool r 3 then Bronze
  else Plain.

(** One [<tr>].  [row_gdpPerCapita] is printed with [toLocaleString()], whose
    text depends on the host locale, so the number itself is kept. *)
Record Row : Type := {
  row_onClick : string;
  row_selected : bool;
  row_badge : Badge;
  row_rank : number;
  row_iso : string;
  row_country : string;
  row_topsisScore : string;
  row_rcScore : string;
  row_gdpPerCapita : number;
  row_digitalInfra : string;
  row_jobMarket : string
}.

(** [selectedCountry === result.iso] with [selectedCountry : string | null]. *)
Definition strictEq (selectedCountry : option string) (code : string) : bool :=
  match selectedCountry with
  | Some c => String.eqb c code
  | None => false
  end.

Definition row (selectedCountry : option string) (result : CountryResult) : Row :=
  {| row_onClick := iso result;
     row_selected := strictEq selectedCountry (iso result);
     row_badge := badge (rank result);
     row_rank := rank result;
     row_iso := iso result;
     row_country := country result;
     row_topsisScore := toFixed 3 (topsisScore result);
     row_rcScore := toFixed 2 (rcScore result);
     row_gdpPerCapita := gdpPerCapita result;
     row_digitalInfra := toFixed 2 (digitalInfra result);
     row_jobMarket := toFixed 2 (jobMarket result) |}.

Definition render (results : list CountryResult) (selectedCountry : option string)
  : list Row :=
  map (row selectedCountry) results.

End ResultsTable.

(** ** CountryDetailCard.tsx *)
Module CountryDetailCard.

Record RadarDatum : Type := { metric : string; value : number; fullMark : number }.

Record Detail : Type := {
  d_heading : string;
  d_rank : number;
  d_score : string;
  d_iso : string;
  d_radarName : string;
  d_radarData : list RadarDatum;
  d_rcScore : string;
  d_gdpPerCapita : string;
  d_digitalInfra : string;
  d_jobMarket : string;
  d_description : string
}.

Inductive Card : Type :=
| Placeholder (message : string)
| Details (d : Detail).

Definition render (countryDetail : option CountryResult) : Card :=
  match countryDetail with
  | None => Placeholder "Select a country to view details"
  | Some countryDetail =>
      let radarData :=
        [ {| metric := "RC Score"; value := rcScore countryDetail; fullMark := 100 |}
        ; {| metric := "GDP/Capita"; value := gdpPerCapita countryDetail / 1000;
             fullMark := 100 |}
        ; {| metric := "Digital Infra"; value := digitalInfra countryDetail;
             fullMark := 100 |}
        ; {| metric := "Job Market"; value := jobMarket countryDetail; fullMark := 100 |}
        ] in
      Details
        {| d_heading := country countryDetail;
           d_rank := rank countryDetail;
           d_score := toFixed 3 (topsisScore countryDetail);
           d_iso := iso countryDetail;
           d_radarName := country countryDetail;
           d_radarData := radarData;
           d_rcScore := toFixed 2 (rcScore countryDetail);
           d_gdpPerCapita :=
             "$" +:+ toFixed 0 (gdpPerCapita countryDetail / 1000) +:+ "k";
           d_digitalInfra := toFixed 2 (digitalInfra countryDetail);
           d_jobMarket := toFixed 2 (jobMarket countryDetail);
           d_description := description countryDetail |}
  end.

End CountryDetailCard.

(** ** ResultsScreen.tsx *)
Module ResultsScreen.

Record Weights : Type := { rc : number; gdp : number; infra : number; job : number }.

(** Sample data for different scenarios *)
Definition scenarioData : gmap string (list CountryResult) :=
  list_to_map [
  ("balanced",
   [ {| rank := 1; iso := "USA"; country := "United States"; topsisScore := 0.892;
        rcScore := 72.5; gdpPerCapita := 69287; digitalInfra := 88.3; jobMarket := 91.2;
        description := "The United States leads with balanced excellence across all metrics. Strong job market and digital infrastructure make it ideal for AI startups seeking talent and technical capabilities." |}
   ; {| rank := 2; iso := "GBR"; country := "United Kingdom"; topsisScore := 0.845;
        rcScore := 68.2; gdpPerCapita := 46125; digitalInfra := 85.7; jobMarket := 84.6;
        description := "The UK offers a strong regulatory environment and competitive job market, particularly in London. Good balance between market access and talent availability." |}
   ; {| rank := 3; iso := "CAN"; country := "Canada"; topsisScore := 0.821;
        rcScore := 75.8; gdpPerCapita := 52051; digitalInfra := 83.4; jobMarket := 79.5;
        description := "Canada provides favorable regulations and a welcoming environment for tech companies. Strong immigration policies support talent acquisition." |}
   ; {| rank := 4; iso := "AUS"; country := "Australia"; topsisScore := 0.798;
        rcScore := 71.3; gdpPerCapita := 51812; digitalInfra := 82.1; jobMarket := 76.8;
        description := "Australia combines strong digital infrastructure with a stable regulatory framework. Growing tech ecosystem in Sydney and Melbourne." |}
   ; {| rank := 5; iso := "DEU"; country := "Germany"; topsisScore := 0.776;
        rcScore := 65.4; gdpPerCapita := 50795; digitalInfra := 81.9; jobMarket := 82.3;
        description := "Germany offers access to the EU market with strong engineering talent. Regulations favor data privacy and consumer protection." |}
   ; {| rank := 6; iso := "KOR"; country := "South Korea"; topsisScore := 0.754;
        rcScore := 69.7; gdpPerCapita := 35196; digitalInfra := 92.5; jobMarket := 74.2;
        description := "South Korea leads in digital infrastructure with world-class connectivity. Strong government support for AI and technology sectors." |}
   ]);
  ("talent-focused",
   [ {| rank := 1; iso := "USA"; country := "United States"; topsisScore := 0.921;
        rcScore := 72.5; gdpPerCapita := 69287; digitalInfra := 88.3; jobMarket := 91.2;
        description := "The United States dominates in AI talent with deep pools in Silicon Valley, Boston, and Seattle. Top universities and competitive compensation attract global talent." |}
   ; {| rank := 2; iso := "GBR"; country := "United Kingdom"; topsisScore := 0.867;
        rcScore := 68.2; gdpPerCapita := 46125; digitalInfra := 85.7; jobMarket := 84.6;
        description := "The UK, particularly London, offers strong AI research talent from leading universities like Oxford and Cambridge." |}
   ; {| rank := 3; iso := "DEU"; country := "Germany"; topsisScore := 0.834;
        rcScore := 65.4; gdpPerCapita := 50795; digitalInfra := 81.9; jobMarket := 82.3;
        description := "Germany provides excellent engineering talent with strong technical education and research institutions." |}
   ; {| rank := 4; iso := "CAN"; country := "Canada"; topsisScore := 0.812;
        rcScore := 75.8; gdpPerCapita := 52051; digitalInfra := 83.4; jobMarket := 79.5;
        description := "Canada has emerged as an AI research hub with centers in Toronto, Montreal, and Vancouver. Immigration-friendly policies attract talent." |}
   ; {| rank := 5; iso := "AUS"; country := "Australia"; topsisScore := 0.781;
        rcScore := 71.3; gdpPerCapita := 51812; digitalInfra := 82.1; jobMarket := 76.8;
        description := "Australia offers growing AI talent pools and quality of life that attracts international workers." |}
   ; {| rank := 6; iso := "KOR"; country := "South Korea"; topsisScore := 0.765;
        rcScore := 69.7; gdpPerCapita := 35196; digitalInfra := 92.5; jobMarket := 74.2;
        description := "South Korea has strong technical talent in AI and robotics, supported by major tech companies." |}
   ]);
  ("regulation-focused",
   [ {| rank := 1; iso := "CAN"; country := "Canada"; topsisScore := 0.887;
        rcScore := 75.8; gdpPerCapita := 52051; digitalInfra := 83.4; jobMarket := 79.5;
        description := "Canada leads in regulatory clarity with progressive AI governance frameworks and supportive government policies." |}
   ; {| rank := 2; iso := "USA"; country := "United States"; topsisScore := 0.856;
        rcScore := 72.5; gdpPerCapita := 69287; digitalInfra := 88.3; jobMarket := 91.2;
        description := "The US offers relatively favorable regulations with innovation-friendly policies at federal and state levels." |}
   ; {| rank := 3; iso := "AUS"; country := "Australia"; topsisScore := 0.829;
        rcScore := 71.3; gdpPerCapita := 51812; digitalInfra := 82.1; jobMarket := 76.8;
        description := "Australia provides clear regulatory frameworks with balanced approach to innovation and consumer protection." |}
   ; {| rank := 4; iso := "KOR"; country := "South Korea"; topsisScore := 0.801;
        rcScore := 69.7; gdpPerCapita := 35196; digitalInfra := 92.5; jobMarket := 74.2;
        description := "South Korea maintains tech-friendly regulations with strong government support for AI development." |}
   ; {| rank := 5; iso := "GBR"; country := "United Kingdom"; topsisScore := 0.778;
        rcScore := 68.2; gdpPerCapita := 46125; digitalInfra := 85.7; jobMarket := 84.6;
        description := "The UK offers post-Brexit regulatory flexibility while maintaining high standards for AI governance." |}
   ; {| rank := 6; iso := "DEU"; country := "Germany"; topsisScore := 0.743;
        rcScore := 65.4; gdpPerCapita := 50795; digitalInfra := 81.9; jobMarket := 82.3;
        description := "Germany follows strict EU regulations with emphasis on data protection and ethical AI deployment." |}
   ]);
  ("market-focused",
   [ {| rank := 1; iso := "USA"; country := "United States"; topsisScore := 0.905;
        rcScore := 72.5; gdpPerCapita := 69287; digitalInfra := 88.3; jobMarket := 91.2;
        description := "The United States offers the largest market with highest GDP per capita and consumer spending power." |}
   ; {| rank := 2; iso := "CAN"; country := "Canada"; topsisScore := 0.871;
        rcScore := 75.8; gdpPerCapita := 52051; digitalInfra := 83.4; jobMarket := 79.5;
        description := "Canada provides strong purchasing power and serves as gateway to North American markets." |}
   ; {| rank := 3; iso := "AUS"; country := "Australia"; topsisScore := 0.847;
        rcScore := 71.3; gdpPerCapita := 51812; digitalInfra := 82.1; jobMarket := 76.8;
        description := "Australia offers high GDP per capita with strong consumer markets in urban centers." |}
   ; {| rank := 4; iso := "DEU"; country := "Germany"; topsisScore := 0.823;
        rcScore := 65.4; gdpPerCapita := 50795; digitalInfra := 81.9; jobMarket := 82.3;
        description := "Germany provides access to wealthy European markets as the economic engine of the EU." |}
   ; {| rank := 5; iso := "GBR"; country := "United Kingdom"; topsisScore := 0.798;
        rcScore := 68.2; gdpPerCapita := 46125; digitalInfra := 85.7; jobMarket := 84.6;
        description := "The UK offers strong domestic market and serves as financial hub with high-value sectors." |}
   ; {| rank := 6; iso := "KOR"; country := "South Korea"; topsisScore := 0.721;
        rcScore := 69.7; gdpPerCapita := 35196; digitalInfra := 92.5; jobMarket := 74.2;
        description := "South Korea has growing market with tech-savvy consumers but lower GDP per capita." |}
   ]);
  ("infra-focused",
   [ {| rank := 1; iso := "KOR"; country := "South Korea"; topsisScore := 0.934;
        rcScore := 69.7; gdpPerCapita := 35196; digitalInfra := 92.5; jobMarket := 74.2;
        description := "South Korea leads globally in digital infrastructure with fastest internet speeds and comprehensive 5G coverage." |}
   ; {| rank := 2; iso := "USA"; country := "United States"; topsisScore := 0.891;
        rcScore := 72.5; gdpPerCapita := 69287; digitalInfra := 88.3; jobMarket := 91.2;
        description := "The US provides world-class cloud infrastructure with major data centers and tech infrastructure." |}
   ; {| rank := 3; iso := "GBR"; country := "United Kingdom"; topsisScore := 0.862;
        rcScore := 68.2; gdpPerCapita := 46125; digitalInfra := 85.7; jobMarket := 84.6;
        description := "The UK offers strong digital connectivity and well-developed tech infrastructure in major cities." |}
   ; {| rank := 4; iso := "CAN"; country := "Canada"; topsisScore := 0.839;
        rcScore := 75.8; gdpPerCapita := 52051; digitalInfra := 83.4; jobMarket := 79.5;
        description := "Canada maintains excellent digital infrastructure with reliable connectivity across urban centers." |}
   ; {| rank := 5; iso := "AUS"; country := "Australia"; topsisScore := 0.817;
        rcScore := 71.3; gdpPerCapita := 51812; digitalInfra := 82.1; jobMarket := 76.8;
        description := "Australia has invested heavily in digital infrastructure despite geographic challenges." |}
   ; {| rank := 6; iso := "DEU"; country := "Germany"; topsisScore := 0.795;
        rcScore := 65.4; gdpPerCapita := 50795; digitalInfra := 81.9; jobMarket := 82.3;
        description := "Germany offers solid infrastructure though lags behind leaders in certain connectivity metrics." |}
   ])
  ].

Definition scenarioWeights : gmap string Weights :=
  list_to_map
    [ ("balanced", {| rc := 0.25; gdp := 0.25; infra := 0.25; job := 0.25 |})
    ; ("talent-focused", {| rc := 0.20; gdp := 0.20; infra := 0.20; job := 0.40 |})
    ; ("regulation-focused", {| rc := 0.40; gdp := 0.20; infra := 0.20; job := 0.20 |})
    ; ("market-focused", {| rc := 0.20; gdp := 0.40; infra := 0.20; job := 0.20 |})
    ; ("infra-focused", {| rc := 0.20; gdp := 0.20; infra := 0.40; job := 0.20 |})
    ].

(** The two module-level objects.  [const] fixes the binding, not the object,
    so they are carried in the program state and every read goes through it. *)
Record Tables : Type := {
  tbl_scenarioData : gmap string (list CountryResult);
  tbl_scenarioWeights : gmap string Weights
}.

Definition tables : Tables :=
  {| tbl_scenarioData := scenarioData; tbl_scenarioWeights := scenarioWeights |}.

(** The two [useState] cells. *)
Record State : Type := {
  selectedScenario : string;
  selectedCountry : option string
}.

Definition initialState : State :=
  {| selectedScenario := "talent-focused"; selectedCountry := Some "USA" |}.

Definition setSelectedScenario (scenario : string) (s : State) : State :=
  {| selectedScenario := scenario; selectedCountry := selectedCountry s |}.

Definition setSelectedCountry (code : string) (s : State) : State :=
  {| selectedScenario := selectedScenario s; selectedCountry := Some code |}.

(** [currentResults.find(c => c.iso === selectedCountry) || null] *)
Definition selectedCountryDetail
    (currentResults : list CountryResult) (selectedCountry : option string)
  : option CountryResult :=
  List.find (fun c => ResultsTable.strictEq selectedCountry (iso c)) currentResults.

Record InfoBar : Type := {
  bar_rc : string; bar_gdp : string; bar_infra : string; bar_job : string
}.

Record View : Type := {
  v_tabs : list ScenarioTabs.Tab;
  v_activeScenario : string;
  v_weights : InfoBar;
  v_table : list ResultsTable.Row;
  v_card : CountryDetailCard.Card
}.

(** The JSX returned once both lookups have produced an object. *)
Definition content (results : list CountryResult) (weights : Weights) (s : State)
  : View :=
  {| v_tabs := ScenarioTabs.render (selectedScenario s);
     v_activeScenario := replace "-" " " (selectedScenario s);
     v_weights :=
       {| bar_rc := toFixed 2 (rc weights);
          bar_gdp := toFixed 2 (gdp weights);
          bar_infra := toFixed 2 (infra weights);
          bar_job := toFixed 2 (job weights) |};
     v_table := ResultsTable.render results (selectedCountry s);
     v_card :=
       CountryDetailCard.render (selectedCountryDetail results (selectedCountry s)) |}.

(** [export function ResultsScreen]: [currentResults.find] and
    [currentWeights.rc] throw when the lookup gave [undefined]. *)
Definition render (t : Tables) (s : State) : completion View :=
  let currentResults := tbl_scenarioData t !! selectedScenario s in
  let currentWeights := tbl_scenarioWeights t !! selectedScenario s in
  results ← deref currentResults;
  weights ← deref currentWeights;
  mret (content results weights s).

End ResultsScreen.

(** ** App.tsx *)
Module App.

Import WeightAdjuster.

Record State : Type := {
  showResults : bool;
  selectedStrategy : string;
  weights : list Weight
}.

Definition initialState : State :=
  {| showResults := false;
     selectedStrategy := "balanced";
     weights :=
       [ {| id := "regulation"; label := "Regulation Complexity";
            technicalLabel := "RC_score"; value := 25 |}
       ; {| id := "market"; label := "Market Size";
            technicalLabel := "gdp_per_capita"; value := 25 |}
       ; {| id := "infrastructure"; label := "Digital Infrastructure";
            technicalLabel := "digital_infra_index"; value := 25 |}
       ; {| id := "talent"; label := "AI Job Market";
            technicalLabel := "ai_job_market_score"; value := 25 |}
       ] |}.

Definition setShowResults (b : bool) (a : State) : State :=
  {| showResults := b; selectedStrategy := selectedStrategy a; weights := weights a |}.

Definition setSelectedStrategy (strategyId : string) (a : State) : State :=
  {| showResults := showResults a; selectedStrategy := strategyId; weights := weights a |}.

Definition setWeights (ws : list Weight) (a : State) : State :=
  {| showResults := showResults a; selectedStrategy := selectedStrategy a; weights := ws |}.

(** [{ ...w, value }] *)
Definition withValue (w : Weight) (v : number) : Weight :=
  {| id := id w; label := label w; technicalLabel := technicalLabel w; value := v |}.

Definition handleWeightChange (i : string) (v : number) (a : State) : State :=
  setWeights (map (fun w => if String.eqb (id w) i then withValue w v else w) (weights a)) a.

(** What [console.log] receives. *)
Inductive LogArg : Type :=
| LogString (s : string)
| LogWeights (ws : list Weight).

Definition handleRunAnalysis (a : State) : list (list LogArg) * State :=
  ( [ [LogString "Running analysis with strategy:"; LogString (selectedStrategy a)]
    ; [LogString "Weights:"; LogWeights (weights a)] ],
    setShowResults true a ).

(** The configuration screen: the two panels (the Run Analysis button is always
    there). *)
Record Config : Type := {
  cfg_strategies : list StrategySelector.Choice;
  cfg_sliders : list WeightAdjuster.Slider
}.

Inductive View : Type :=
| ConfigScreen (c : Config)
| ResultsView (v : ResultsScreen.View).

End App.

(** ** The running page *)

(** The module-level tables, the console, the hook state of [App], and the hook
    state of [ResultsScreen] while it is mounted. *)
Record Program : Type := {
  tables : ResultsScreen.Tables;
  console : list (list App.LogArg);
  app : App.State;
  screen : option ResultsScreen.State
}.

Definition initialProgram : Program :=
  {| tables := ResultsScreen.tables;
     console := [];
     app := App.initialState;
     screen := None |}.

(** React's commit after a state change of [App]: [ResultsScreen] is part of
    the tree exactly when [showResults] holds; mounting it runs its [useState]
    initialisers, unmounting it drops its state. *)
Definition commit (p : Program) : Program :=
  {| tables := tables p;
     console := console p;
     app := app p;
     screen :=
       if App.showResults (app p)
       then Some (default ResultsScreen.initialState (screen p))
       else None |}.

Definition updateApp (f : App.State -> App.State) (p : Program) : Program :=
  commit {| tables := tables p; console := console p; app := f (app p);
            screen := screen p |}.

Definition updateScreen (f : ResultsScreen.State -> ResultsScreen.State)
    (p : Program) : Program :=
  {| tables := tables p; console := console p; app := app p;
     screen := f <$> screen p |}.

Definition log (entries : list (list App.LogArg)) (p : Program) : Program :=
  {| tables := tables p; console := console p ++ entries; app := app p;
     screen := screen p |}.

(** [export default function App()] *)
Definition render (p : Program) : completion App.View :=
  if App.showResults (app p) then
    v ← ResultsScreen.render (tables p)
          (default ResultsScreen.initialState (screen p));
    mret (App.ResultsView v)
  else
    mret (App.ConfigScreen
            {| App.cfg_strategies :=
                 StrategySelector.render (App.selectedStrategy (app p));
               App.cfg_sliders := WeightAdjuster.render (App.weights (app p)) |}).

(** What the user can do to the page: press the [k]-th button of a list, drag
    the [k]-th slider to a value, press Run Analysis or Back. *)
Inductive Event : Type :=
| ClickStrategy (k : nat)
| SlideWeight (k : nat) (v : number)
| ClickRunAnalysis
| ClickBack
| ClickScenarioTab (k : nat)
| ClickRow (k : nat).

(** The handler an event runs, found in the content currently on screen;
    [None] when that content has no such element. *)
Definition dispatch (e : Event) (p : Program) : option Program :=
  match render p, e with
  | Normal (App.ConfigScreen c), ClickStrategy k =>
      b ← App.cfg_strategies c !! k;
      Some (updateApp (App.setSelectedStrategy (StrategySelector.opt_onClick b)) p)
  | Normal (App.ConfigScreen c), SlideWeight k v =>
      sl ← App.cfg_sliders c !! k;
      Some (updateApp (App.handleWeightChange (WeightAdjuster.sl_onValueChange sl) v) p)
  | Normal (App.ConfigScreen c), ClickRunAnalysis =>
      let '(entries, a) := App.handleRunAnalysis (app p) in
      Some (updateApp (fun _ => a) (log entries p))
  | Normal (App.ResultsView v), ClickBack =>
      Some (updateApp (App.setShowResults false) p)
  | Normal (App.ResultsView v), ClickScenarioTab k =>
      b ← ResultsScreen.v_tabs v !! k;
      Some (updateScreen (ResultsScreen.setSelectedScenario (ScenarioTabs.tab_onClick b)) p)
  | Normal (App.ResultsView v), ClickRow k =>
      r ← ResultsScreen.v_table v !! k;
      Some (updateScreen (ResultsScreen.setSelectedCountry (ResultsTable.row_onClick r)) p)
  | _, _ => None
  end.

Fixpoint run (es : list Event) (p : Program) : option Program :=
  match es with
  | [] => Some p
  | e :: es' => p' ← dispatch e p; run es' p'
  end.

Inductive reachable : Program -> Prop :=
| reachable_init : reachable initialProgram
| reachable_step p e p' : reachable p -> dispatch e p = Some p' -> reachable p'.

(** ** Vocabulary of the statements *)

(** The identifiers the scenario tabs offer, and the country codes. *)
Definition scenarioIds : list string := ScenarioTabs.id <$> ScenarioTabs.scenarios.

Definition isoCodes : list string := ["USA"; "GBR"; "CAN"; "AUS"; "DEU"; "KOR"].

(** The four indicator values of a record. *)
Definition scores (c : CountryResult) : number * number * number * number :=
  (rcScore c, gdpPerCapita c, digitalInfra c, jobMarket c).

(** Reading a printed decimal ([digits] or [digits.digits]) back as a number. *)
Definition readDecimal (s : string) : option number :=
  let nat_of (t : string) : option number :=
    (fun u => inject_Z (Z.of_N (N.of_uint u))) <$> NilZero.uint_of_string t in
  match String.index 0 "." s with
  | None => nat_of s
  | Some i =>
      let frac := String.substring (i + 1) (String.length s - (i + 1)) s in
      a ← nat_of (String.substring 0 i s);
      b ← nat_of frac;
      Some (a + b / inject_Z (10 ^ Z.of_nat (String.length frac)))%Q
  end.

(** The text [txt] denotes exactly the number [x]. *)
Definition reads (txt : string) (x : number) : Prop :=
  exists y, readDecimal txt = Some y /\ y == x.

(** A table row displays a record: every cell denotes the record's field. *)
Definition shows (r : ResultsTable.Row) (c : CountryResult) : Prop :=
  ResultsTable.row_rank r = rank c /\
  ResultsTable.row_iso r = iso c /\
  ResultsTable.row_country r = country c /\
  reads (ResultsTable.row_topsisScore r) (topsisScore c) /\
  reads (ResultsTable.row_rcScore r) (rcScore c) /\
  ResultsTable.row_gdpPerCapita r = gdpPerCapita c /\
  reads (ResultsTable.row_digitalInfra r) (digitalInfra c) /\
  reads (ResultsTable.row_jobMarket r) (jobMarket c).

(** The info bar displays a weight quadruple. *)
Definition showsWeights (b : ResultsScreen.InfoBar) (w : ResultsScreen.Weights) : Prop :=
  reads (ResultsScreen.bar_rc b) (ResultsScreen.rc w) /\
  reads (ResultsScreen.bar_gdp b) (ResultsScreen.gdp w) /\
  reads (ResultsScreen.bar_infra b) (ResultsScreen.infra w) /\
  reads (ResultsScreen.bar_job b) (ResultsScreen.job w).

(** The four criteria, and the one a scenario name puts forward. *)
Inductive Criterion : Type := Regulation | Market | Infrastructure | Talent.

Definition weightOf (c : Criterion) (w : ResultsScreen.Weights) : number :=
  match c with
  | Regulation => ResultsScreen.rc w
  | Market => ResultsScreen.gdp w
  | Infrastructure => ResultsScreen.infra w
  | Talent => ResultsScreen.job w
  end.

Definition emphasized (scenario : string) : option Criterion :=
  if String.eqb scenario "talent-focused" then Some Talent
  else if String.eqb scenario "regulation-focused" then Some Regulation
  else if String.eqb scenario "market-focused" then Some Market
  else if String.eqb scenario "infra-focused" then Some Infrastructure
  else None.

Definition criterion_eqb (a b : Criterion) : bool :=
  match a, b with
  | Regulation, Regulation | Market, Market
  | Infrastructure, Infrastructure | Talent, Talent => true
  | _, _ => false
  end.

(** The sum of the four weights as the doubles JavaScript holds, added left to
    right. *)
Definition doubleSum (w : ResultsScreen.Weights) : float :=
  (to_double (ResultsScreen.rc w) + to_double (ResultsScreen.gdp w) +
   to_double (ResultsScreen.infra w) + to_double (ResultsScreen.job w))%float.

(** The configuration screen with any console, strategy and slider values. *)
Definition configured (logged : list (list App.LogArg)) (strategy : string)
    (ws : list WeightAdjuster.Weight) : Program :=
  {| tables := ResultsScreen.tables;
     console := logged;
     app := {| App.showResults := false; App.selectedStrategy := strategy;
               App.weights := ws |};
     screen := None |}.

(** Events of the results screen other than Back. *)
Definition onResults (e : Event) : bool :=
  match e with
  | ClickScenarioTab _ | ClickRow _ => true
  | _ => false
  end.

(** The hook state a handler must leave alone, event by event. *)
Definition frame (e : Event) (p p' : Program) : Prop :=
  match e with
  | ClickStrategy _ =>
      App.showResults (app p') = App.showResults (app p) /\
      App.weights (app p') = App.weights (app p) /\
      screen p' = screen p /\ console p' = console p
  | SlideWeight _ _ =>
      App.showResults (app p') = App.showResults (app p) /\
      App.selectedStrategy (app p') = App.selectedStrategy (app p) /\
      screen p' = screen p /\ console p' = console p
  | ClickRunAnalysis =>
      App.selectedStrategy (app p') = App.selectedStrategy (app p) /\
      App.weights (app p') = App.weights (app p)
  | ClickBack =>
      App.selectedStrategy (app p') = App.selectedStrategy (app p) /\
      App.weights (app p') = App.weights (app p) /\
      console p' = console p
  | ClickScenarioTab _ =>
      app p' = app p /\ console p' = console p /\
      ResultsScreen.selectedCountry <$> screen p' =
      ResultsScreen.selectedCountry <$> screen p
  | ClickRow _ =>
      app p' = app p /\ console p' = console p /\
      ResultsScreen.selectedScenario <$> screen p' =
      ResultsScreen.selectedScenario <$> screen p
  end.

(** What every state of the mounted results screen satisfies. *)
Definition valid (s : ResultsScreen.State) : Prop :=
  ResultsScreen.selectedScenario s ∈ scenarioIds /\
  exists code, ResultsScreen.selectedCountry s = Some code /\ code ∈ isoCodes.

Definition coherent (p : Program) : Prop :=
  tables p = ResultsScreen.tables /\
  if App.showResults (app p)
  then exists s, screen p = Some s /\ valid s
  else screen p = None.

(** Two pages that both show the results screen, over the same tables and in
    the same hook state of [ResultsScreen]. *)
Definition sameScreen (p q : Program) : Prop :=
  tables p = tables q /\ screen p = screen q /\
  App.showResults (app p) = true /\ App.showResults (app q) = true.

(** A page reached by some clicks, used to instantiate the statements. *)
Definition visited : Program :=
  default initialProgram
    (run [SlideWeight 1 30; ClickStrategy 3; ClickRunAnalysis; ClickScenarioTab 4;
          ClickRow 3; ClickScenarioTab 0] initialProgram).

(** ** Proof automation *)

(** Case analysis on a successful lookup in a table written as a literal. *)
Ltac table_cases H :=
  apply elem_of_list_to_map_2 in H;
  repeat (apply elem_of_cons in H as [H | H]);
  [ injection H as -> -> .. | apply elem_of_nil in H; contradiction ].

(** Case analysis on membership in a list written as a literal. *)
Ltac list_cases H :=
  repeat (apply elem_of_cons in H as [H | H]);
  [ .. | apply elem_of_nil in H; contradiction ].

Ltac decide_by_computation := apply (bool_decide_unpack _); vm_compute; exact I.

Ltac read_back := eexists; split; [vm_compute; reflexivity | reflexivity].

Ltac split_all := repeat match goal with |- _ /\ _ => split end.

(** ** CountryMap.tsx *)
Module CountryMap.

Record Country : Type := { code : string; name : string; score : number; region : string }.

Definition countries : list Country :=
  [ {| code := "US"; name := "United States"; score := 92; region := "North America" |}
  ; {| code := "SG"; name := "Singapore"; score := 88; region := "Asia Pacific" |}
  ; {| code := "UK"; name := "United Kingdom"; score := 85; region := "Europe" |}
  ; {| code := "DE"; name := "Germany"; score := 83; region := "Europe" |}
  ; {| code := "CA"; name := "Canada"; score := 81; region := "North America" |}
  ; {| code := "JP"; name := "Japan"; score := 79; region := "Asia Pacific" |}
  ; {| code := "AU"; name := "Australia"; score := 77; region := "Asia Pacific" |}
  ; {| code := "FR"; name := "France"; score := 75; region := "Europe" |}
  ; {| code := "KR"; name := "South Korea"; score := 74; region := "Asia Pacific" |}
  ; {| code := "NL"; name := "Netherlands"; score := 72; region := "Europe" |}
  ; {| code := "SE"; name := "Sweden"; score := 70; region := "Europe" |}
  ; {| code := "CH"; name := "Switzerland"; score := 68; region := "Europe" |}
  ].

(** One tile: its React key, the two captions, the score shown, and the width
    of the score bar in percent of its track ([width: `${country.score}%`]). *)
Record Tile : Type := {
  tile_key : string;
  tile_name : string;
  tile_region : string;
  tile_score : number;
  tile_barPercent : number
}.

Definition render : list Tile :=
  map (fun country =>
         {| tile_key := code country;
            tile_name := name country;
            tile_region := region country;
            tile_score := score country;
            tile_barPercent := score country |})
      countries.

End CountryMap.

(** ** React keys *)

(** The [key] attribute of the elements each [map] of the JSX produces. *)
Definition tabKeys : list string := map ScenarioTabs.id ScenarioTabs.scenarios.

Definition strategyKeys : list string :=
  map StrategySelector.id StrategySelector.strategies.

Definition sliderKeys (weights : list WeightAdjuster.Weight) : list string :=
  map WeightAdjuster.id weights.

Definition rowKeys (results : list CountryResult) : list string := map iso results.

(** The keyed lists of the page currently rendered, one list of keys per
    [map]; it throws where the render does. *)
Definition keyedLists (p : Program) : completion (list (list string)) :=
  if App.showResults (app p) then
    let s := default ResultsScreen.initialState (screen p) in
    results ← deref (ResultsScreen.tbl_scenarioData (tables p) !!
                       ResultsScreen.selectedScenario s);
    _ ← deref (ResultsScreen.tbl_scenarioWeights (tables p) !!
                 ResultsScreen.selectedScenario s);
    mret [tabKeys; rowKeys results]
  else
    mret [strategyKeys; sliderKeys (App.weights (app p))].

(** ** Further vocabulary *)

(** The sum of the slider values. *)
Definition totalWeight (ws : list WeightAdjuster.Weight) : number :=
  foldr Qplus 0%Q (WeightAdjuster.value <$> ws).

(** The captions of a weight: everything but its value. *)
Definition captions (w : WeightAdjuster.Weight) : string * string * string :=
  (WeightAdjuster.id w, WeightAdjuster.label w, WeightAdjuster.technicalLabel w).

(** The four criteria of the sliders, as [App] declares them. *)
Definition criteria : list (string * string * string) :=
  [ ("regulation", "Regulation Complexity", "RC_score")
  ; ("market", "Market Size", "gdp_per_capita")
  ; ("infrastructure", "Digital Infrastructure", "digital_infra_index")
  ; ("talent", "AI Job Market", "ai_job_market_score") ].

Definition isRunAnalysis (e : Event) : bool :=
  match e with
  | ClickRunAnalysis => true
  | _ => false
  end.

(** The elements an event can address: five strategy buttons and four sliders
    on the configuration screen, five tabs and six rows on the results screen. *)
Definition enabled (e : Event) (p : Program) : bool :=
  match e with
  | ClickStrategy k => negb (App.showResults (app p)) && (k <? 5)%nat
  | SlideWeight k _ => negb (App.showResults (app p)) && (k <? 4)%nat
  | ClickRunAnalysis => negb (App.showResults (app p))
  | ClickBack => App.showResults (app p)
  | ClickScenarioTab k => App.showResults (app p) && (k <? 5)%nat
  | ClickRow k => App.showResults (app p) && (k <? 6)%nat
  end.

(** What stays the same on the detail card of a country across scenarios. *)
Definition indicators (card : CountryDetailCard.Detail)
  : string * string * string * list CountryDetailCard.RadarDatum *
    (string * string * string * string) :=
  (CountryDetailCard.d_iso card, CountryDetailCard.d_heading card,
   CountryDetailCard.d_radarName card, CountryDetailCard.d_radarData card,
   (CountryDetailCard.d_rcScore card, CountryDetailCard.d_gdpPerCapita card,
    CountryDetailCard.d_digitalInfra card, CountryDetailCard.d_jobMarket card)).

(** A record with empty fields, the default of partial lookups in examples. *)
Definition blankRecord : CountryResult :=
  {| rank := 0; iso := ""; country := ""; topsisScore := 0; rcScore := 0;
     gdpPerCapita := 0; digitalInfra := 0; jobMarket := 0; description := "" |}.


(** * Properties *)

(** ** The model on concrete inputs *)

Example toFixed_examples :
  toFixed 2 0.2 = "0.20" /\ toFixed 3 0.892 = "0.892" /\
  toFixed 0 (50795 / 1000) = "51" /\ toFixed 2 72.5 = "72.50" /\
  toFixed 1 12.25 = "12.3" /\ toFixed 2 (-0.001) = "-0.00".
Proof. split_all; vm_compute; reflexivity. Qed.

Example replace_examples :
  replace "-" " " "talent-focused" = "talent focused" /\
  replace "-" " " "balanced" = "balanced" /\
  replace "-" " " "a-b-c" = "a b-c".
Proof. split_all; vm_compute; reflexivity. Qed.

Example readDecimal_examples :
  readDecimal "0.20" = Some (0 + 20 / 100)%Q /\ readDecimal "51" = Some 51%Q /\
  readDecimal "-0.00" = None.
Proof. split_all; vm_compute; reflexivity. Qed.

Example scenarioIds_offered :
  scenarioIds =
  ["balanced"; "talent-focused"; "regulation-focused"; "market-focused";
   "infra-focused"].
Proof. unfold scenarioIds. cbn. reflexivity. Qed.

Example first_results_screen :
  exists v,
    render <$> run [ClickRunAnalysis] initialProgram =
      Some (Normal (App.ResultsView v)) /\
    ResultsScreen.v_activeScenario v = "talent focused" /\
    ResultsTable.row_iso <$> ResultsScreen.v_table v =
      ["USA"; "GBR"; "DEU"; "CAN"; "AUS"; "KOR"] /\
    ResultsTable.row_topsisScore <$> ResultsScreen.v_table v =
      ["0.921"; "0.867"; "0.834"; "0.812"; "0.781"; "0.765"] /\
    ResultsScreen.v_weights v =
      {| ResultsScreen.bar_rc := "0.20"; ResultsScreen.bar_gdp := "0.20";
         ResultsScreen.bar_infra := "0.20"; ResultsScreen.bar_job := "0.40" |}.
Proof.
  eexists. split; [vm_compute; reflexivity |]. split_all; reflexivity.
Qed.

Example slider_changes_one_value :
  WeightAdjuster.value <$>
    App.weights (App.handleWeightChange "market" 30 App.initialState) =
  [25; 30; 25; 25]%Q.
Proof. reflexivity. Qed.

Example run_analysis_logs_configuration :
  console <$> run [ClickStrategy 3; ClickRunAnalysis] initialProgram =
  Some [ [App.LogString "Running analysis with strategy:";
          App.LogString "market-focused"]
       ; [App.LogString "Weights:"; App.LogWeights (App.weights App.initialState)] ].
Proof. vm_compute. reflexivity. Qed.

(** ** The two lookup tables *)

Lemma scenarioData_defined s :
  s ∈ scenarioIds -> is_Some (ResultsScreen.scenarioData !! s).
Proof.
  intros H. unfold scenarioIds in H. cbn in H. list_cases H; subst s.
  all: vm_compute; eexists; reflexivity.
Qed.

Lemma scenarioWeights_defined s :
  s ∈ scenarioIds -> is_Some (ResultsScreen.scenarioWeights !! s).
Proof.
  intros H. unfold scenarioIds in H. cbn in H. list_cases H; subst s.
  all: vm_compute; eexists; reflexivity.
Qed.

Lemma scenarioData_named s d :
  ResultsScreen.scenarioData !! s = Some d -> s ∈ scenarioIds.
Proof.
  intros H. unfold ResultsScreen.scenarioData in H. table_cases H.
  all: decide_by_computation.
Qed.

Lemma scenarioWeights_named s w :
  ResultsScreen.scenarioWeights !! s = Some w -> s ∈ scenarioIds.
Proof.
  intros H. unfold ResultsScreen.scenarioWeights in H. table_cases H.
  all: decide_by_computation.
Qed.

Lemma scenarioData_codes s d :
  ResultsScreen.scenarioData !! s = Some d -> iso <$> d ≡ₚ isoCodes.
Proof.
  intros H. unfold ResultsScreen.scenarioData in H. table_cases H.
  all: apply NoDup_Permutation; [ decide_by_computation | decide_by_computation | ].
  all: intros x; split; intros Hx; cbn in Hx; unfold isoCodes in *.
  all: list_cases Hx; subst x; decide_by_computation.
Qed.


Lemma StronglySorted_lookup {A} (R : A -> A -> Prop) (l : list A) i j a b :
  StronglySorted R l -> l !! i = Some a -> l !! j = Some b -> (i < j)%nat -> R a b.
Proof.
  intros Hl. revert i j. induction Hl as [| x l Hl IH Hx]; intros i j Hi Hj Hij.
  - by rewrite lookup_nil in Hi.
  - destruct j as [| j]; [lia |]. cbn in Hj. destruct i as [| i]; cbn in Hi.
    + injection Hi as <-. rewrite Forall_forall in Hx. apply Hx.
      by eapply list_elem_of_lookup_2.
    + eapply IH; eauto. lia.
Qed.

(** C5: in each of the five datasets the rank field is the 1-based position,
    the TOPSIS scores strictly decrease down the list, and every score lies
    strictly between 0 and 1. *)
Theorem datasets_ranked_and_sorted (s : string) (d : list CountryResult) :
  ResultsScreen.scenarioData !! s = Some d ->
  s ∈ scenarioIds /\
  (forall i r, d !! i = Some r -> rank r == inject_Z (Z.of_nat i + 1)) /\
  (forall i j ri rj, d !! i = Some ri -> d !! j = Some rj -> (i < j)%nat ->
                     (topsisScore rj < topsisScore ri)%Q) /\
  (forall r, r ∈ d -> (0 < topsisScore r)%Q /\ (topsisScore r < 1)%Q).
Proof.
  intros H. split; [by eapply scenarioData_named |].
  unfold ResultsScreen.scenarioData in H. table_cases H.
  all: split; [| split].
  all: try (intros i r Hi; do 6 (destruct i as [| i]; [injection Hi as <-; reflexivity |]);
            discriminate Hi).
  all: try (intros i j ri rj Hi Hj Hij;
            apply (StronglySorted_lookup (fun a b => (topsisScore b < topsisScore a)%Q)
                     _ i j ri rj) in Hi; [exact Hi | | exact Hj | exact Hij];
            repeat (constructor; [| repeat (constructor; [reflexivity |]); constructor]);
            constructor).
  all: intros r Hr; list_cases Hr; subst r; split; reflexivity.
Qed.

Lemma datasets_ranked_and_sorted_witness :
  let d := default [] (ResultsScreen.scenarioData !! "market-focused") in
  ResultsScreen.scenarioData !! "market-focused" = Some d /\
  "market-focused" ∈ scenarioIds /\
  (forall i r, d !! i = Some r -> rank r == inject_Z (Z.of_nat i + 1)) /\
  (forall i j ri rj, d !! i = Some ri -> d !! j = Some rj -> (i < j)%nat ->
                     (topsisScore rj < topsisScore ri)%Q) /\
  (forall r, r ∈ d -> (0 < topsisScore r)%Q /\ (topsisScore r < 1)%Q).
Proof.
  assert (Hd : ResultsScreen.scenarioData !! "market-focused" =
               Some (default [] (ResultsScreen.scenarioData !! "market-focused")))
    by (vm_compute; reflexivity).
  split; [exact Hd |]. exact (datasets_ranked_and_sorted _ _ Hd).
Defined.


(** C8: the four weights of every scenario sum to exactly 1 (as decimals, and
    as doubles added left to right); [balanced] gives 0.25 to each criterion,
    a focused scenario 0.40 to its own criterion and 0.20 to the other three. *)
Theorem weights_sum_to_one (s : string) (w : ResultsScreen.Weights) :
  ResultsScreen.scenarioWeights !! s = Some w ->
  s ∈ scenarioIds /\
  ResultsScreen.rc w + ResultsScreen.gdp w + ResultsScreen.infra w + ResultsScreen.job w == 1 /\
  doubleSum w = 1%float /\
  match emphasized s with
  | None => s = "balanced" /\ forall c, weightOf c w == 0.25
  | Some e => forall c, weightOf c w == if criterion_eqb c e then 0.40 else 0.20
  end.
Proof.
  intros H. split; [by eapply scenarioWeights_named |].
  unfold ResultsScreen.scenarioWeights in H. table_cases H.
  all: split; [reflexivity | split; [vm_compute; reflexivity |]].
  all: cbn; try split; try reflexivity.
  all: intros []; reflexivity.
Qed.

Lemma weights_sum_to_one_witness :
  let w := {| ResultsScreen.rc := 0.20; ResultsScreen.gdp := 0.40;
              ResultsScreen.infra := 0.20; ResultsScreen.job := 0.20 |} in
  ResultsScreen.scenarioWeights !! "market-focused" = Some w /\
  "market-focused" ∈ scenarioIds /\
  ResultsScreen.rc w + ResultsScreen.gdp w + ResultsScreen.infra w + ResultsScreen.job w == 1 /\
  doubleSum w = 1%float /\
  forall c, weightOf c w == if criterion_eqb c Market then 0.40 else 0.20.
Proof.
  assert (Hw : ResultsScreen.scenarioWeights !! "market-focused" =
               Some {| ResultsScreen.rc := 0.20; ResultsScreen.gdp := 0.40;
                       ResultsScreen.infra := 0.20; ResultsScreen.job := 0.20 |})
    by (vm_compute; reflexivity).
  split; [exact Hw |]. exact (weights_sum_to_one _ _ Hw).
Defined.

(** Every record carries the four indicator values of its country, whatever
    the scenario: they are those of the record with that code in [balanced]. *)
Lemma scores_by_country s d c :
  ResultsScreen.scenarioData !! s = Some d -> c ∈ d ->
  Some (scores c) =
  scores <$> List.find (fun c0 => String.eqb (iso c0) (iso c))
                       (default [] (ResultsScreen.scenarioData !! "balanced")).
Proof.
  intros H Hc. unfold ResultsScreen.scenarioData in H. table_cases H.
  all: list_cases Hc; subst c; vm_compute; reflexivity.
Qed.

Lemma scores_agree s1 s2 d1 d2 c1 c2 :
  ResultsScreen.scenarioData !! s1 = Some d1 ->
  ResultsScreen.scenarioData !! s2 = Some d2 ->
  c1 ∈ d1 -> c2 ∈ d2 -> iso c1 = iso c2 -> scores c1 = scores c2.
Proof.
  intros H1 H2 Hc1 Hc2 Hiso.
  pose proof (scores_by_country _ _ _ H1 Hc1) as E1.
  pose proof (scores_by_country _ _ _ H2 Hc2) as E2.
  rewrite Hiso in E1. congruence.
Qed.

(** A code found in one dataset is found in every other. *)
Lemma find_defined d sel :
  is_Some (ResultsScreen.selectedCountryDetail d sel) <->
  exists code, sel = Some code /\ code ∈ iso <$> d.
Proof.
  unfold ResultsScreen.selectedCountryDetail. split.
  - intros [c Hc]. apply List.find_some in Hc as [Hin Heq].
    destruct sel as [code |]; [| discriminate]. exists code. split; [done |].
    cbn in Heq. apply String.eqb_eq in Heq as ->.
    apply list_elem_of_fmap. exists c. split; [done |]. by apply list_elem_of_In.
  - intros (code & -> & Hin). apply list_elem_of_fmap in Hin as (c & -> & Hc).
    destruct (List.find _ d) as [c' |] eqn:E; [by eexists |].
    apply list_elem_of_In in Hc.
    pose proof (List.find_none _ _ E _ Hc) as Hn. cbn in Hn.
    by rewrite String.eqb_refl in Hn.
Qed.

(** ** Rendering and dispatching *)

Lemma render_content t s d w :
  ResultsScreen.tbl_scenarioData t !! ResultsScreen.selectedScenario s = Some d ->
  ResultsScreen.tbl_scenarioWeights t !! ResultsScreen.selectedScenario s = Some w ->
  ResultsScreen.render t s = Normal (ResultsScreen.content d w s).
Proof. intros Hd Hw. unfold ResultsScreen.render. rewrite Hd, Hw. reflexivity. Qed.

Lemma render_normal t s v :
  ResultsScreen.render t s = Normal v ->
  exists d w,
    ResultsScreen.tbl_scenarioData t !! ResultsScreen.selectedScenario s = Some d /\
    ResultsScreen.tbl_scenarioWeights t !! ResultsScreen.selectedScenario s = Some w /\
    v = ResultsScreen.content d w s.
Proof.
  unfold ResultsScreen.render.
  destruct (ResultsScreen.tbl_scenarioData t !! _) as [d |]; [| discriminate].
  destruct (ResultsScreen.tbl_scenarioWeights t !! _) as [w |]; [| discriminate].
  intros [= <-]. by exists d, w.
Qed.

Lemma render_config p :
  App.showResults (app p) = false ->
  render p =
  Normal (App.ConfigScreen
            {| App.cfg_strategies := StrategySelector.render (App.selectedStrategy (app p));
               App.cfg_sliders := WeightAdjuster.render (App.weights (app p)) |}).
Proof. intros H. unfold render. by rewrite H. Qed.

Lemma render_results p :
  App.showResults (app p) = true ->
  render p =
  v ← ResultsScreen.render (tables p) (default ResultsScreen.initialState (screen p));
  mret (App.ResultsView v).
Proof. intros H. unfold render. by rewrite H. Qed.

(** [Array.prototype.map] keeps positions. *)
Lemma lookup_map {A B} (f : A -> B) (l : list A) (k : nat) :
  map f l !! k = f <$> l !! k.
Proof. revert k. induction l as [| a l IH]; intros [| k]; cbn; auto. Qed.

(** What a successful dispatch did, event by event. *)
Lemma dispatch_inv e p p' :
  dispatch e p = Some p' ->
  match e with
  | ClickStrategy k =>
      App.showResults (app p) = false /\
      exists st, StrategySelector.strategies !! k = Some st /\
        p' = updateApp (App.setSelectedStrategy (StrategySelector.id st)) p
  | SlideWeight k v =>
      App.showResults (app p) = false /\
      exists w, App.weights (app p) !! k = Some w /\
        p' = updateApp (App.handleWeightChange (WeightAdjuster.id w) v) p
  | ClickRunAnalysis =>
      App.showResults (app p) = false /\
      p' = updateApp (fun _ => (App.handleRunAnalysis (app p)).2)
                     (log (App.handleRunAnalysis (app p)).1 p)
  | ClickBack =>
      App.showResults (app p) = true /\
      p' = updateApp (App.setShowResults false) p
  | ClickScenarioTab k =>
      App.showResults (app p) = true /\
      exists sc, ScenarioTabs.scenarios !! k = Some sc /\
        p' = updateScreen (ResultsScreen.setSelectedScenario (ScenarioTabs.id sc)) p
  | ClickRow k =>
      App.showResults (app p) = true /\
      exists d c,
        ResultsScreen.tbl_scenarioData (tables p) !!
          ResultsScreen.selectedScenario (default ResultsScreen.initialState (screen p))
        = Some d /\
        d !! k = Some c /\
        p' = updateScreen (ResultsScreen.setSelectedCountry (iso c)) p
  end.
Proof.
  unfold dispatch. destruct (App.showResults (app p)) eqn:Hshow.
  - rewrite (render_results p Hshow).
    destruct (ResultsScreen.render _ _) as [v |] eqn:Hv; cbn; [| by destruct e].
    apply render_normal in Hv as (d & w & Hd & Hw & ->).
    destruct e; try discriminate;
      cbn [ResultsScreen.content ResultsScreen.v_tabs ResultsScreen.v_table].
    + intros [= <-]. done.
    + unfold ScenarioTabs.render. rewrite lookup_map.
      destruct (ScenarioTabs.scenarios !! k) as [sc |]; [| discriminate].
      cbn. intros [= <-]. split; [done |]. by exists sc.
    + unfold ResultsTable.render. rewrite lookup_map.
      destruct (d !! k) as [c |] eqn:Hc; [| discriminate].
      cbn. intros [= <-]. split; [done |]. by exists d, c.
  - rewrite (render_config p Hshow).
    destruct e; try discriminate; cbn [App.cfg_strategies App.cfg_sliders].
    + unfold StrategySelector.render. rewrite lookup_map.
      destruct (StrategySelector.strategies !! k) as [st |]; [| discriminate].
      cbn. intros [= <-]. split; [done |]. by exists st.
    + unfold WeightAdjuster.render. rewrite lookup_map.
      destruct (App.weights (app p) !! k) as [w |]; [| discriminate].
      cbn. intros [= <-]. split; [done |]. by exists w.
    + intros [= <-]. done.
Qed.

Lemma dispatch_tables e p p' : dispatch e p = Some p' -> tables p' = tables p.
Proof.
  intros H. apply dispatch_inv in H.
  destruct e; cbn in H; destruct H as [_ H];
    repeat match goal with H : exists _, _ |- _ => destruct H as [? H] end;
    repeat match goal with H : _ /\ _ |- _ => destruct H as [_ H] end;
    by subst p'.
Qed.

(** ** The invariant of the running page *)

Lemma valid_initialState : valid ResultsScreen.initialState.
Proof.
  split; [decide_by_computation |]. exists "USA". split; [done | decide_by_computation].
Qed.

Lemma coherent_initialProgram : coherent initialProgram.
Proof. by split. Qed.

Lemma tab_offers_scenario k sc :
  ScenarioTabs.scenarios !! k = Some sc -> ScenarioTabs.id sc ∈ scenarioIds.
Proof.
  intros H. unfold scenarioIds. apply list_elem_of_fmap. exists sc.
  split; [done |]. by eapply list_elem_of_lookup_2.
Qed.

Lemma row_offers_code s d k c :
  ResultsScreen.scenarioData !! s = Some d -> d !! k = Some c -> iso c ∈ isoCodes.
Proof.
  intros Hd Hk. rewrite <- (scenarioData_codes s d Hd).
  apply list_elem_of_fmap. exists c. split; [done |]. by eapply list_elem_of_lookup_2.
Qed.

Lemma dispatch_coherent e p p' :
  coherent p -> dispatch e p = Some p' -> coherent p'.
Proof.
  intros [Ht Hs] H. split; [by rewrite (dispatch_tables _ _ _ H) |].
  apply dispatch_inv in H. destruct e; destruct H as [Hshow H]; rewrite Hshow in Hs.
  - destruct H as (st & _ & ->). cbn. by rewrite Hshow.
  - destruct H as (w & _ & ->). cbn. by rewrite Hshow.
  - subst p'. cbn. rewrite Hs. exists ResultsScreen.initialState.
    split; [done | apply valid_initialState].
  - by subst p'.
  - destruct H as (sc & Hk & ->). destruct Hs as (s & Hscr & _ & Hc).
    cbn. rewrite Hshow, Hscr. eexists. split; [reflexivity |].
    split; [by eapply tab_offers_scenario | exact Hc].
  - destruct H as (d & c & Hd & Hk & ->). destruct Hs as (s & Hscr & Hsc & _).
    cbn. rewrite Hshow, Hscr. eexists. split; [reflexivity |].
    split; [exact Hsc |]. exists (iso c). split; [done |].
    rewrite Ht, Hscr in Hd. by eapply row_offers_code.
Qed.

Lemma reachable_coherent p : reachable p -> coherent p.
Proof.
  induction 1 as [| p e p' _ IH H]; [apply coherent_initialProgram |].
  by eapply dispatch_coherent.
Qed.

Lemma run_reachable es p p' : reachable p -> run es p = Some p' -> reachable p'.
Proof.
  revert p. induction es as [| e es IH]; intros p Hp; cbn.
  - by intros [= <-].
  - destruct (dispatch e p) as [q |] eqn:Hq; [| discriminate].
    cbn. apply IH. by eapply reachable_step.
Qed.

Lemma Some_default {A} (o : option A) (x : A) :
  is_Some o -> o = Some (default x o).
Proof. by intros [y ->]. Qed.

Lemma reachable_visited : reachable visited.
Proof.
  eapply (run_reachable _ initialProgram); [apply reachable_init |].
  apply Some_default. decide_by_computation.
Qed.

(** On the results screen of a coherent page both lookups succeed and the
    screen renders its content. *)
Lemma coherent_results p :
  coherent p -> App.showResults (app p) = true ->
  exists s d w,
    screen p = Some s /\ valid s /\
    ResultsScreen.scenarioData !! ResultsScreen.selectedScenario s = Some d /\
    ResultsScreen.scenarioWeights !! ResultsScreen.selectedScenario s = Some w /\
    render p = Normal (App.ResultsView (ResultsScreen.content d w s)).
Proof.
  intros [Ht Hs] Hshow. rewrite Hshow in Hs. destruct Hs as (s & Hscr & Hv).
  destruct (scenarioData_defined _ (proj1 Hv)) as [d Hd].
  destruct (scenarioWeights_defined _ (proj1 Hv)) as [w Hw].
  exists s, d, w. repeat split; try done; try apply Hv.
  rewrite (render_results p Hshow), Hscr, Ht.
  by rewrite (render_content _ _ d w).
Qed.

(** C2: in every state the page can reach, the lookups of the selected
    scenario in both tables are defined, and rendering never throws. *)
Theorem lookups_never_undefined (p : Program) :
  reachable p ->
  (exists v, render p = Normal v) /\
  (forall s, screen p = Some s ->
     ResultsScreen.selectedScenario s ∈ scenarioIds /\
     is_Some (ResultsScreen.tbl_scenarioData (tables p) !!
                ResultsScreen.selectedScenario s) /\
     is_Some (ResultsScreen.tbl_scenarioWeights (tables p) !!
                ResultsScreen.selectedScenario s)).
Proof.
  intros Hp. pose proof (reachable_coherent p Hp) as Hc. split.
  - destruct (App.showResults (app p)) eqn:Hshow.
    + destruct (coherent_results p Hc Hshow) as (s & d & w & _ & _ & _ & _ & Hr).
      by eexists.
    + rewrite (render_config p Hshow). by eexists.
  - intros s Hscr. destruct Hc as [Ht Hs].
    destruct (App.showResults (app p)); [| congruence].
    destruct Hs as (s' & Hscr' & Hv & _). assert (s' = s) as -> by congruence.
    rewrite Ht. split; [done |].
    split; [by apply scenarioData_defined | by apply scenarioWeights_defined].
Qed.

Lemma lookups_never_undefined_witness :
  reachable visited /\
  (exists v, render visited = Normal v) /\
  (forall s, screen visited = Some s ->
     ResultsScreen.selectedScenario s ∈ scenarioIds /\
     is_Some (ResultsScreen.tbl_scenarioData (tables visited) !!
                ResultsScreen.selectedScenario s) /\
     is_Some (ResultsScreen.tbl_scenarioWeights (tables visited) !!
                ResultsScreen.selectedScenario s)).
Proof.
  split; [apply reachable_visited |].
  exact (lookups_never_undefined visited reachable_visited).
Defined.

(** ** What the results screen displays *)

Lemma Forall2_map_self {A B} (R : B -> A -> Prop) (f : A -> B) (l : list A) :
  (forall a, a ∈ l -> R (f a) a) -> Forall2 R (map f l) l.
Proof.
  induction l as [| a l IH]; intros H; cbn; constructor.
  - apply H. apply elem_of_cons. by left.
  - apply IH. intros b Hb. apply H. apply elem_of_cons. by right.
Qed.

(** Every row of a rendered dataset displays the record at its position:
    the printed decimals lose nothing of the stored values. *)
Lemma table_shows_dataset s d sel :
  ResultsScreen.scenarioData !! s = Some d ->
  Forall2 shows (ResultsTable.render d sel) d.
Proof.
  intros H. apply Forall2_map_self. intros c Hc.
  unfold ResultsScreen.scenarioData in H. table_cases H.
  all: list_cases Hc; subst c.
  all: unfold shows; split_all.
  all: first [reflexivity | read_back].
Qed.

Lemma bar_shows_weights s w st d :
  ResultsScreen.scenarioWeights !! s = Some w ->
  showsWeights (ResultsScreen.v_weights (ResultsScreen.content d w st)) w.
Proof.
  intros H. unfold ResultsScreen.scenarioWeights in H. table_cases H.
  all: unfold showsWeights; split_all; read_back.
Qed.

Lemma dispatch_tab p k sc v :
  App.showResults (app p) = true ->
  render p = Normal (App.ResultsView v) ->
  ScenarioTabs.scenarios !! k = Some sc ->
  dispatch (ClickScenarioTab k) p =
  Some (updateScreen (ResultsScreen.setSelectedScenario (ScenarioTabs.id sc)) p).
Proof.
  intros Hshow Hr Hk. unfold dispatch. rewrite Hr.
  rewrite (render_results p Hshow) in Hr.
  destruct (ResultsScreen.render _ _) as [v' |] eqn:Hv; [| discriminate].
  injection Hr as <-. apply render_normal in Hv as (d & w & _ & _ & ->).
  cbn [ResultsScreen.content ResultsScreen.v_tabs].
  unfold ScenarioTabs.render. rewrite lookup_map, Hk. reflexivity.
Qed.

(** Pressing the [k]-th tab: the button is on screen and hands its scenario id
    to [setSelectedScenario]; the next render displays both tables' entries for
    that id. *)
Lemma tab_click_shows_tables p k sc :
  reachable p -> App.showResults (app p) = true ->
  ScenarioTabs.scenarios !! k = Some sc ->
  exists v0 tab p' v d w,
    render p = Normal (App.ResultsView v0) /\
    ResultsScreen.v_tabs v0 !! k = Some tab /\
    ScenarioTabs.tab_onClick tab = ScenarioTabs.id sc /\
    dispatch (ClickScenarioTab k) p = Some p' /\
    render p' = Normal (App.ResultsView v) /\
    ResultsScreen.selectedScenario <$> screen p' = Some (ScenarioTabs.id sc) /\
    ResultsScreen.scenarioData !! ScenarioTabs.id sc = Some d /\
    ResultsScreen.scenarioWeights !! ScenarioTabs.id sc = Some w /\
    Forall2 shows (ResultsScreen.v_table v) d /\
    showsWeights (ResultsScreen.v_weights v) w.
Proof.
  intros Hp Hshow Hk.
  destruct (coherent_results p (reachable_coherent p Hp) Hshow)
    as (s & d0 & w0 & _ & _ & _ & _ & Hr).
  pose proof (dispatch_tab p k sc _ Hshow Hr Hk) as Hstep.
  set (p' := updateScreen _ p) in Hstep.
  assert (Hp' : reachable p') by (by eapply reachable_step).
  assert (Hshow' : App.showResults (app p') = true) by exact Hshow.
  destruct (coherent_results p' (reachable_coherent p' Hp') Hshow')
    as (s' & d & w & Hscr' & _ & Hd & Hw & Hr').
  assert (Hsel : ResultsScreen.selectedScenario s' = ScenarioTabs.id sc).
  { subst p'. cbn in Hscr'. destruct (screen p); cbn in Hscr'; [| discriminate].
    by injection Hscr' as <-. }
  rewrite Hsel in Hd, Hw.
  exists (ResultsScreen.content d0 w0 s), (ScenarioTabs.tab_of (ResultsScreen.selectedScenario s) sc).
  exists p', (ResultsScreen.content d w s'), d, w.
  split_all; try done.
  - cbn [ResultsScreen.content ResultsScreen.v_tabs]. unfold ScenarioTabs.render.
    by rewrite lookup_map, Hk.
  - by rewrite Hscr', <- Hsel.
  - by eapply table_shows_dataset.
  - by eapply bar_shows_weights.
Qed.

(** C1: for each of the five scenario identifiers, the tab that selects it is
    on the results screen, and pressing it makes the table display the records
    of [scenarioData] for that scenario, one row per record in the stored
    order, and the info bar display the four weights of [scenarioWeights] for
    it. *)
Theorem selecting_scenario_shows_its_tables (p : Program) (s : string) :
  reachable p -> App.showResults (app p) = true ->
  s ∈ ["balanced"; "talent-focused"; "regulation-focused"; "market-focused";
       "infra-focused"] ->
  exists k v0 tab p' v d w,
    render p = Normal (App.ResultsView v0) /\
    ResultsScreen.v_tabs v0 !! k = Some tab /\
    ScenarioTabs.tab_onClick tab = s /\
    dispatch (ClickScenarioTab k) p = Some p' /\
    render p' = Normal (App.ResultsView v) /\
    ResultsScreen.selectedScenario <$> screen p' = Some s /\
    ResultsScreen.scenarioData !! s = Some d /\
    ResultsScreen.scenarioWeights !! s = Some w /\
    Forall2 shows (ResultsScreen.v_table v) d /\
    showsWeights (ResultsScreen.v_weights v) w.
Proof.
  intros Hp Hshow Hs. change (s ∈ scenarioIds) in Hs. unfold scenarioIds in Hs.
  apply list_elem_of_lookup_1 in Hs as [k Hk].
  apply list_lookup_fmap_Some in Hk as (sc & -> & Hk).
  exists k. by apply tab_click_shows_tables.
Qed.

Lemma selecting_scenario_shows_its_tables_witness :
  reachable visited /\ App.showResults (app visited) = true /\
  exists k v0 tab p' v d w,
    render visited = Normal (App.ResultsView v0) /\
    ResultsScreen.v_tabs v0 !! k = Some tab /\
    ScenarioTabs.tab_onClick tab = "regulation-focused" /\
    dispatch (ClickScenarioTab k) visited = Some p' /\
    render p' = Normal (App.ResultsView v) /\
    ResultsScreen.selectedScenario <$> screen p' = Some "regulation-focused" /\
    ResultsScreen.scenarioData !! "regulation-focused" = Some d /\
    ResultsScreen.scenarioWeights !! "regulation-focused" = Some w /\
    Forall2 shows (ResultsScreen.v_table v) d /\
    showsWeights (ResultsScreen.v_weights v) w.
Proof.
  assert (Hshow : App.showResults (app visited) = true) by (vm_compute; reflexivity).
  split_all; [apply reachable_visited | exact Hshow |].
  apply (selecting_scenario_shows_its_tables visited "regulation-focused"
           reachable_visited Hshow).
  decide_by_computation.
Defined.

(** ** The detail card *)

Lemma find_none d sel :
  ResultsScreen.selectedCountryDetail d sel = None <->
  forall c, c ∈ d -> Some (iso c) <> sel.
Proof.
  unfold ResultsScreen.selectedCountryDetail. split.
  - intros H c Hc Heq. apply list_elem_of_In in Hc.
    pose proof (List.find_none _ _ H c Hc) as Hn. subst sel. cbn in Hn.
    by rewrite String.eqb_refl in Hn.
  - intros H. destruct (List.find _ d) as [c |] eqn:E; [| done].
    apply List.find_some in E as [Hin Heq]. exfalso.
    destruct sel as [code |]; [| discriminate]. cbn in Heq.
    apply String.eqb_eq in Heq. apply (H c); [by apply list_elem_of_In |].
    by rewrite Heq.
Qed.

(** C3: the card is the placeholder exactly when its prop is null (and then
    it is that constant text, built from no record); the results screen hands
    it null exactly when no record of the current dataset carries the selected
    country code. *)
Theorem placeholder_iff_no_country
    (t : ResultsScreen.Tables) (s : ResultsScreen.State)
    (d : list CountryResult) (v : ResultsScreen.View) :
  ResultsScreen.tbl_scenarioData t !! ResultsScreen.selectedScenario s = Some d ->
  ResultsScreen.render t s = Normal v ->
  (forall countryDetail,
     CountryDetailCard.render countryDetail =
       CountryDetailCard.Placeholder "Select a country to view details"
     <-> countryDetail = None) /\
  ResultsScreen.v_card v =
    CountryDetailCard.render
      (ResultsScreen.selectedCountryDetail d (ResultsScreen.selectedCountry s)) /\
  (ResultsScreen.selectedCountryDetail d (ResultsScreen.selectedCountry s) = None
   <-> forall c, c ∈ d -> Some (iso c) <> ResultsScreen.selectedCountry s).
Proof.
  intros Hd Hr. split_all.
  - intros [c |]; split; intros H; try done; discriminate H.
  - apply render_normal in Hr as (d' & w & Hd' & _ & ->).
    assert (d' = d) as -> by congruence. reflexivity.
  - apply find_none.
Qed.

Lemma placeholder_iff_no_country_witness :
  let s := {| ResultsScreen.selectedScenario := "infra-focused";
              ResultsScreen.selectedCountry := Some "FRA" |} in
  let d := default [] (ResultsScreen.scenarioData !! "infra-focused") in
  let v := ResultsScreen.content d
             {| ResultsScreen.rc := 0.20; ResultsScreen.gdp := 0.20;
                ResultsScreen.infra := 0.40; ResultsScreen.job := 0.20 |} s in
  ResultsScreen.tbl_scenarioData ResultsScreen.tables !!
    ResultsScreen.selectedScenario s = Some d /\
  ResultsScreen.render ResultsScreen.tables s = Normal v /\
  ResultsScreen.v_card v =
    CountryDetailCard.Placeholder "Select a country to view details" /\
  forall c, c ∈ d -> Some (iso c) <> Some "FRA".
Proof.
  intros s d v.
  assert (Hd : ResultsScreen.tbl_scenarioData ResultsScreen.tables !!
                 ResultsScreen.selectedScenario s = Some d)
    by (vm_compute; reflexivity).
  assert (Hr : ResultsScreen.render ResultsScreen.tables s = Normal v)
    by (vm_compute; reflexivity).
  destruct (placeholder_iff_no_country ResultsScreen.tables s d v Hd Hr)
    as (_ & Hcard & Hnone).
  assert (Hfind : ResultsScreen.selectedCountryDetail d
                    (ResultsScreen.selectedCountry s) = None)
    by (vm_compute; reflexivity).
  split_all; [exact Hd | exact Hr | | exact (proj1 Hnone Hfind)].
  rewrite Hcard, Hfind. reflexivity.
Defined.

(** ** Handlers and what they leave alone *)

(** C4: no handler writes to the lookup tables, which stay the literal ones,
    and each handler changes only the hook cell it sets. *)
Theorem handlers_leave_tables_alone (e : Event) (p p' : Program) :
  reachable p -> dispatch e p = Some p' ->
  tables p' = tables p /\
  ResultsScreen.tbl_scenarioData (tables p') = ResultsScreen.scenarioData /\
  ResultsScreen.tbl_scenarioWeights (tables p') = ResultsScreen.scenarioWeights /\
  frame e p p'.
Proof.
  intros Hp H. pose proof (reachable_coherent p Hp) as [Ht Hs].
  pose proof (dispatch_tables e p p' H) as Ht'.
  split_all; [exact Ht' | by rewrite Ht', Ht | by rewrite Ht', Ht |].
  apply dispatch_inv in H. destruct e; destruct H as [Hshow H]; rewrite Hshow in Hs.
  - destruct H as (st & _ & ->). cbn. by rewrite Hshow, Hs.
  - destruct H as (w & _ & ->). cbn. by rewrite Hshow, Hs.
  - by subst p'.
  - by subst p'.
  - destruct H as (sc & _ & ->). cbn. split_all; try done. by destruct (screen p).
  - destruct H as (d & c & _ & _ & ->). cbn. split_all; try done. by destruct (screen p).
Qed.

Lemma handlers_leave_tables_alone_witness :
  let p' := default visited (dispatch (ClickRow 5) visited) in
  reachable visited /\
  dispatch (ClickRow 5) visited = Some p' /\
  tables p' = tables visited /\
  ResultsScreen.tbl_scenarioData (tables p') = ResultsScreen.scenarioData /\
  ResultsScreen.tbl_scenarioWeights (tables p') = ResultsScreen.scenarioWeights /\
  frame (ClickRow 5) visited p'.
Proof.
  intros p'.
  assert (H : dispatch (ClickRow 5) visited = Some p')
    by (apply Some_default; decide_by_computation).
  split; [apply reachable_visited |]. split; [exact H |].
  exact (handlers_leave_tables_alone (ClickRow 5) visited p' reachable_visited H).
Defined.

(** ** The results screen does not see the configuration *)

Lemma render_same p q : sameScreen p q -> render p = render q.
Proof.
  intros (Ht & Hs & Hp & Hq).
  by rewrite (render_results p Hp), (render_results q Hq), Ht, Hs.
Qed.

Lemma dispatch_same e p q :
  onResults e = true -> sameScreen p q ->
  match dispatch e p, dispatch e q with
  | Some p', Some q' => sameScreen p' q'
  | None, None => True
  | _, _ => False
  end.
Proof.
  intros He H. unfold dispatch. rewrite <- (render_same p q H).
  destruct H as (Ht & Hs & Hp & Hq).
  destruct (render p) as [[c | v] |]; destruct e; try discriminate He; try done.
  - destruct (ResultsScreen.v_tabs v !! k) as [b |]; cbn; [| done].
    unfold sameScreen. cbn. by rewrite Hs.
  - destruct (ResultsScreen.v_table v !! k) as [r |]; cbn; [| done].
    unfold sameScreen. cbn. by rewrite Hs.
Qed.

Lemma run_same es p q :
  forallb onResults es = true -> sameScreen p q ->
  render <$> run es p = render <$> run es q.
Proof.
  revert p q. induction es as [| e es IH]; intros p q Hes H; cbn.
  - f_equal. by apply render_same.
  - cbn in Hes. apply andb_prop in Hes as [He Hes].
    pose proof (dispatch_same e p q He H) as Hstep.
    destruct (dispatch e p) as [p' |], (dispatch e q) as [q' |]; try done.
    cbn. by apply IH.
Qed.

Lemma run_analysis_configured logged strategy ws :
  dispatch ClickRunAnalysis (configured logged strategy ws) =
  Some {| tables := ResultsScreen.tables;
          console := logged ++ (App.handleRunAnalysis
                                  (app (configured logged strategy ws))).1;
          app := {| App.showResults := true; App.selectedStrategy := strategy;
                    App.weights := ws |};
          screen := Some ResultsScreen.initialState |}.
Proof. reflexivity. Qed.

(** C6: whatever the sliders and the strategy were when Run Analysis was
    pressed, the results screen displays the same content, and keeps doing so
    after any scenario-tab and row clicks. *)
Theorem results_ignore_configuration
    (logged1 logged2 : list (list App.LogArg)) (strategy1 strategy2 : string)
    (ws1 ws2 : list WeightAdjuster.Weight) (es : list Event) :
  forallb onResults es = true ->
  (exists v, render <$> run [ClickRunAnalysis] (configured logged1 strategy1 ws1) =
             Some (Normal (App.ResultsView v))) /\
  render <$> run (ClickRunAnalysis :: es) (configured logged1 strategy1 ws1) =
  render <$> run (ClickRunAnalysis :: es) (configured logged2 strategy2 ws2).
Proof.
  intros Hes. split.
  - cbn [run]. rewrite run_analysis_configured. cbn [mbind option_bind fmap option_map].
    eexists. reflexivity.
  - cbn [run]. rewrite !run_analysis_configured. cbn [mbind option_bind].
    apply run_same; [exact Hes | by repeat split].
Qed.
Lemma results_ignore_configuration_witness :
  let es := [ClickScenarioTab 4; ClickRow 0] in
  let ws2 := [ {| WeightAdjuster.id := "talent"; WeightAdjuster.label := "AI Job Market";
                  WeightAdjuster.technicalLabel := "ai_job_market_score";
                  WeightAdjuster.value := 100 |} ] in
  forallb onResults es = true /\
  is_Some (run (ClickRunAnalysis :: es)
             (configured [] "balanced" (App.weights App.initialState))) /\
  (exists v, render <$> run [ClickRunAnalysis]
                          (configured [] "balanced" (App.weights App.initialState)) =
             Some (Normal (App.ResultsView v))) /\
  render <$> run (ClickRunAnalysis :: es)
               (configured [] "balanced" (App.weights App.initialState)) =
  render <$> run (ClickRunAnalysis :: es) (configured [] "infra-focused" ws2).
Proof.
  intros es ws2. split; [reflexivity |]. split; [decide_by_computation |].
  exact (results_ignore_configuration [] [] "balanced" "infra-focused"
           (App.weights App.initialState) ws2 es eq_refl).
Defined.

(** ** The weight sliders *)

Lemma map_unchanged {A} (f : A -> A) (l : list A) :
  (forall a, a ∈ l -> f a = a) -> map f l = l.
Proof.
  induction l as [| a l IH]; intros H; cbn; [done |]. f_equal.
  - apply H. apply elem_of_cons. by left.
  - apply IH. intros b Hb. apply H. apply elem_of_cons. by right.
Qed.

(** C7: [handleWeightChange id value] gives the weights with that id the new
    value and keeps their id and labels; every other weight, the order and the
    length of the list, and the other hook cells are untouched; with no weight
    of that id the list is unchanged. *)
Theorem handleWeightChange_frame (i : string) (v : number) (a : App.State) :
  let a' := App.handleWeightChange i v a in
  App.showResults a' = App.showResults a /\
  App.selectedStrategy a' = App.selectedStrategy a /\
  length (App.weights a') = length (App.weights a) /\
  (forall k w, App.weights a !! k = Some w ->
     exists w', App.weights a' !! k = Some w' /\
       WeightAdjuster.id w' = WeightAdjuster.id w /\
       WeightAdjuster.label w' = WeightAdjuster.label w /\
       WeightAdjuster.technicalLabel w' = WeightAdjuster.technicalLabel w /\
       (WeightAdjuster.id w = i -> WeightAdjuster.value w' = v) /\
       (WeightAdjuster.id w <> i -> w' = w)) /\
  ((forall w, w ∈ App.weights a -> WeightAdjuster.id w <> i) ->
   App.weights a' = App.weights a).
Proof.
  cbn. split_all; try reflexivity.
  - apply length_map.
  - intros k w Hk. rewrite lookup_map, Hk. cbn. eexists. split; [reflexivity |].
    destruct (String.eqb_spec (WeightAdjuster.id w) i) as [Heq | Hne]; cbn.
    + by split_all.
    + by split_all.
  - intros H. apply map_unchanged. intros w Hw.
    destruct (String.eqb_spec (WeightAdjuster.id w) i) as [Heq | Hne]; [| done].
    by destruct (H w Hw).
Qed.

(** ** Entering the results screen *)

(** C9: Run Analysis always opens the results screen on [talent-focused] with
    [USA] selected, whatever strategy is selected; the strategy is kept in
    [App] and not handed over, so the two can differ. *)
Theorem results_open_on_talent_focused (p : Program) :
  reachable p -> App.showResults (app p) = false ->
  exists p' v,
    dispatch ClickRunAnalysis p = Some p' /\
    screen p' = Some {| ResultsScreen.selectedScenario := "talent-focused";
                        ResultsScreen.selectedCountry := Some "USA" |} /\
    App.selectedStrategy (app p') = App.selectedStrategy (app p) /\
    render p' = Normal (App.ResultsView v) /\
    ResultsScreen.v_activeScenario v = "talent focused" /\
    (App.selectedStrategy (app p) <> "talent-focused" ->
     Some (App.selectedStrategy (app p')) <>
     ResultsScreen.selectedScenario <$> screen p').
Proof.
  intros Hp Hshow. pose proof (reachable_coherent p Hp) as [Ht Hs].
  rewrite Hshow in Hs. destruct p as [t c [sh st ws] s]. cbn in Ht, Hs, Hshow.
  subst t s sh. change (Build_Program _ _ _ _) with (configured c st ws).
  rewrite run_analysis_configured. do 2 eexists.
  split; [reflexivity |]. split; [reflexivity |]. split; [reflexivity |].
  split; [reflexivity |]. split; [reflexivity |].
  cbn. intros Hne [= Heq]. by apply Hne.
Qed.

Lemma results_open_on_talent_focused_witness :
  let p' := default initialProgram (dispatch ClickRunAnalysis initialProgram) in
  reachable initialProgram /\
  App.showResults (app initialProgram) = false /\
  App.selectedStrategy (app initialProgram) = "balanced" /\
  dispatch ClickRunAnalysis initialProgram = Some p' /\
  screen p' = Some {| ResultsScreen.selectedScenario := "talent-focused";
                      ResultsScreen.selectedCountry := Some "USA" |} /\
  App.selectedStrategy (app p') = "balanced" /\
  Some (App.selectedStrategy (app p')) <> ResultsScreen.selectedScenario <$> screen p'.
Proof.
  intros p'.
  destruct (results_open_on_talent_focused initialProgram reachable_init eq_refl)
    as (q & v & Hq & Hscr & Hst & _ & _ & Hdiff).
  assert (q = p') as -> by (unfold p'; by rewrite Hq).
  split_all;
    [ apply reachable_init | reflexivity | reflexivity | exact Hq | exact Hscr
    | exact Hst | apply Hdiff; discriminate ].
Defined.
(** ** The same countries in every scenario *)

Lemma run_onResults_app es p p' :
  forallb onResults es = true -> run es p = Some p' ->
  app p' = app p /\ (es <> [] -> App.showResults (app p) = true).
Proof.
  revert p. induction es as [| e es IH]; intros p Hes; cbn.
  - intros [= <-]. by split.
  - cbn in Hes. apply andb_prop in Hes as [He Hes].
    destruct (dispatch e p) as [q |] eqn:Hq; [| discriminate]. cbn. intros Hrun.
    destruct (IH q Hes Hrun) as [Happ _]. apply dispatch_inv in Hq.
    destruct e; try discriminate He; destruct Hq as [Hshow Hq].
    + destruct Hq as (sc & _ & ->). by rewrite Happ.
    + destruct Hq as (d & c & _ & _ & ->). by rewrite Happ.
Qed.

(** C10: every dataset lists the six codes USA, GBR, CAN, AUS, DEU, KOR once
    each; a country has the same four indicator values in every scenario; so
    after a row has been clicked, no sequence of scenario switches makes the
    lookup of the selected country fail or brings the placeholder back. *)
Theorem same_countries_in_every_scenario :
  (forall s d, ResultsScreen.scenarioData !! s = Some d -> iso <$> d ≡ₚ isoCodes) /\
  (forall s1 s2 d1 d2 c1 c2,
     ResultsScreen.scenarioData !! s1 = Some d1 ->
     ResultsScreen.scenarioData !! s2 = Some d2 ->
     c1 ∈ d1 -> c2 ∈ d2 -> iso c1 = iso c2 ->
     rcScore c1 = rcScore c2 /\ gdpPerCapita c1 = gdpPerCapita c2 /\
     digitalInfra c1 = digitalInfra c2 /\ jobMarket c1 = jobMarket c2) /\
  (forall p k p1 tabs p2,
     reachable p -> dispatch (ClickRow k) p = Some p1 ->
     run (ClickScenarioTab <$> tabs) p1 = Some p2 ->
     exists s d c,
       screen p2 = Some s /\
       ResultsScreen.scenarioData !! ResultsScreen.selectedScenario s = Some d /\
       ResultsScreen.selectedCountryDetail d (ResultsScreen.selectedCountry s) = Some c /\
       exists v card,
         render p2 = Normal (App.ResultsView v) /\
         ResultsScreen.v_card v = CountryDetailCard.Details card).
Proof.
  split_all.
  - apply scenarioData_codes.
  - intros s1 s2 d1 d2 c1 c2 H1 H2 Hc1 Hc2 Hiso.
    pose proof (scores_agree _ _ _ _ _ _ H1 H2 Hc1 Hc2 Hiso) as E.
    unfold scores in E. by injection E as -> -> -> ->.
  - intros p k p1 tabs p2 Hp Hrow Hrun.
    assert (Hp1 : reachable p1) by (by eapply reachable_step).
    assert (Hp2 : reachable p2) by (by eapply run_reachable).
    assert (Hshow : App.showResults (app p2) = true).
    { assert (Hes : forallb onResults (ClickScenarioTab <$> tabs) = true)
        by (clear; induction tabs; cbn; auto).
      destruct (run_onResults_app _ _ _ Hes Hrun) as [-> _].
      apply dispatch_inv in Hrow as [Hshow (d & c & _ & _ & ->)]. exact Hshow. }
    destruct (coherent_results p2 (reachable_coherent p2 Hp2) Hshow)
      as (s & d & w & Hscr & [_ (code & Hsel & Hcode)] & Hd & _ & Hr).
    assert (Hfind : is_Some (ResultsScreen.selectedCountryDetail d
                               (ResultsScreen.selectedCountry s))).
    { apply find_defined. exists code. split; [done |].
      by rewrite (scenarioData_codes _ _ Hd). }
    destruct Hfind as [c Hfind]. exists s, d, c. split_all; try done.
    exists (ResultsScreen.content d w s). unfold ResultsScreen.content at 2.
    cbn [ResultsScreen.v_card]. rewrite Hfind. cbn. eexists. by split.
Qed.

Lemma same_countries_in_every_scenario_witness :
  let p1 := default visited (dispatch (ClickRow 5) visited) in
  let p2 := default p1 (run (ClickScenarioTab <$> [4; 1; 3]%nat) p1) in
  iso <$> default [] (ResultsScreen.scenarioData !! "infra-focused") ≡ₚ isoCodes /\
  reachable visited /\
  dispatch (ClickRow 5) visited = Some p1 /\
  run (ClickScenarioTab <$> [4; 1; 3]%nat) p1 = Some p2 /\
  exists v card,
    render p2 = Normal (App.ResultsView v) /\
    ResultsScreen.v_card v = CountryDetailCard.Details card.
Proof.
  intros p1 p2.
  destruct same_countries_in_every_scenario as (Hcodes & _ & Hkeep).
  assert (H1 : dispatch (ClickRow 5) visited = Some p1)
    by (apply Some_default; decide_by_computation).
  assert (H2 : run (ClickScenarioTab <$> [4; 1; 3]%nat) p1 = Some p2)
    by (apply Some_default; decide_by_computation).
  split_all; [ | apply reachable_visited | exact H1 | exact H2 | ].
  - apply (Hcodes "infra-focused"). vm_compute. reflexivity.
  - destruct (Hkeep visited 5%nat p1 [4; 1; 3]%nat p2 reachable_visited H1 H2)
      as (_ & _ & _ & _ & _ & _ & Hv).
    exact Hv.
Defined.

(** * Further properties of the components *)

(** ** Array.prototype.find *)

Lemma find_first_match
    (d : list CountryResult) (sel : option string) (c : CountryResult) :
  ResultsScreen.selectedCountryDetail d sel = Some c <->
  exists code k,
    sel = Some code /\ d !! k = Some c /\ iso c = code /\
    forall j c', (j < k)%nat -> d !! j = Some c' -> iso c' <> code.
Proof.
  unfold ResultsScreen.selectedCountryDetail. destruct sel as [code |]; cbn.
  2: { split; [| by intros (? & ? & ? & _)].
       intros H. apply List.find_some in H as [_ H]. discriminate H. }
  induction d as [| c0 d IH]; cbn.
  - split; [discriminate |]. by intros (? & k & _ & Hk & _).
  - destruct (String.eqb_spec code (iso c0)) as [Heq | Hne].
    + split.
      * intros [= <-]. exists code, 0%nat. split_all; try done. intros j c' Hj. lia.
      * intros (code' & k & [= <-] & Hk & Hc & Hfirst).
        destruct k as [| k]; [by injection Hk as -> |].
        exfalso. apply (Hfirst 0%nat c0); [lia | done | done].
    + rewrite IH. split.
      * intros (code' & k & [= <-] & Hk & Hc & Hfirst).
        exists code, (S k). split_all; try done.
        intros [| j] c' Hj Hc'; [injection Hc' as <-; congruence |].
        apply (Hfirst j); [lia | done].
      * intros (code' & k & [= <-] & Hk & Hc & Hfirst).
        destruct k as [| k]; [injection Hk as ->; congruence |].
        exists code, k. split_all; try done.
        intros j c' Hj Hc'. apply (Hfirst (S j)); [lia | done].
Qed.

(** X1: [selectedCountryDetail] is the first record of the dataset whose code
    is the selected one: it returns [c] exactly when [c] stands at a position
    before which no record carries that code. *)
Theorem selectedCountryDetail_first_match
    (d : list CountryResult) (sel : option string) (c : CountryResult) :
  ResultsScreen.selectedCountryDetail d sel = Some c <->
  exists code k,
    sel = Some code /\ d !! k = Some c /\ iso c = code /\
    forall j c', (j < k)%nat -> d !! j = Some c' -> iso c' <> code.
Proof. apply find_first_match. Qed.

(** ** Computation rules for the two screens *)

Lemma dispatch_config e p :
  App.showResults (app p) = false ->
  dispatch e p =
  match e with
  | ClickStrategy k =>
      st ← StrategySelector.strategies !! k;
      Some (updateApp (App.setSelectedStrategy (StrategySelector.id st)) p)
  | SlideWeight k v =>
      w ← App.weights (app p) !! k;
      Some (updateApp (App.handleWeightChange (WeightAdjuster.id w) v) p)
  | ClickRunAnalysis =>
      Some (updateApp (fun _ => (App.handleRunAnalysis (app p)).2)
                      (log (App.handleRunAnalysis (app p)).1 p))
  | _ => None
  end.
Proof.
  intros Hshow. unfold dispatch. rewrite (render_config p Hshow).
  destruct e; try reflexivity; cbn [App.cfg_strategies App.cfg_sliders].
  - unfold StrategySelector.render. rewrite lookup_map.
    by destruct (StrategySelector.strategies !! k).
  - unfold WeightAdjuster.render. rewrite lookup_map.
    by destruct (App.weights (app p) !! k).
Qed.

Lemma dispatch_results e p s d w :
  App.showResults (app p) = true -> screen p = Some s ->
  ResultsScreen.tbl_scenarioData (tables p) !! ResultsScreen.selectedScenario s = Some d ->
  ResultsScreen.tbl_scenarioWeights (tables p) !! ResultsScreen.selectedScenario s = Some w ->
  dispatch e p =
  match e with
  | ClickBack => Some (updateApp (App.setShowResults false) p)
  | ClickScenarioTab k =>
      sc ← ScenarioTabs.scenarios !! k;
      Some (updateScreen (ResultsScreen.setSelectedScenario (ScenarioTabs.id sc)) p)
  | ClickRow k =>
      c ← d !! k;
      Some (updateScreen (ResultsScreen.setSelectedCountry (iso c)) p)
  | _ => None
  end.
Proof.
  intros Hshow Hscr Hd Hw. unfold dispatch.
  rewrite (render_results p Hshow), Hscr.
  change (default ResultsScreen.initialState (Some s)) with s.
  rewrite (render_content _ _ d w Hd Hw). cbn [mbind completion_bind mret completion_ret].
  destruct e; try reflexivity;
    cbn [ResultsScreen.content ResultsScreen.v_tabs ResultsScreen.v_table].
  - unfold ScenarioTabs.render. rewrite lookup_map.
    by destruct (ScenarioTabs.scenarios !! k).
  - unfold ResultsTable.render. rewrite lookup_map. by destruct (d !! k).
Qed.

(** The tables of a reachable page seen through the state of its screen. *)
Lemma reachable_results p :
  reachable p -> App.showResults (app p) = true ->
  exists s d w,
    screen p = Some s /\ valid s /\
    ResultsScreen.scenarioData !! ResultsScreen.selectedScenario s = Some d /\
    ResultsScreen.scenarioWeights !! ResultsScreen.selectedScenario s = Some w /\
    ResultsScreen.tbl_scenarioData (tables p) !! ResultsScreen.selectedScenario s = Some d /\
    ResultsScreen.tbl_scenarioWeights (tables p) !! ResultsScreen.selectedScenario s = Some w /\
    render p = Normal (App.ResultsView (ResultsScreen.content d w s)).
Proof.
  intros Hp Hshow. pose proof (reachable_coherent p Hp) as Hc.
  destruct (coherent_results p Hc Hshow) as (s & d & w & Hscr & Hv & Hd & Hw & Hr).
  exists s, d, w. destruct Hc as [Ht _]. rewrite Ht. by split_all.
Qed.

(** ** What [App] keeps *)

Lemma captions_handleWeightChange i v a :
  captions <$> App.weights (App.handleWeightChange i v a) = captions <$> App.weights a.
Proof.
  cbn. induction (App.weights a) as [| w ws IH]; cbn; [done |]. f_equal; [| exact IH].
  by destruct (String.eqb (WeightAdjuster.id w) i).
Qed.

Lemma strategy_offered k st :
  StrategySelector.strategies !! k = Some st -> StrategySelector.id st ∈ strategyKeys.
Proof.
  intros H. unfold strategyKeys. change (map ?f ?l) with (f <$> l).
  apply list_elem_of_fmap. exists st. split; [done |]. by eapply list_elem_of_lookup_2.
Qed.

Lemma dispatch_app_invariant e p p' :
  dispatch e p = Some p' ->
  captions <$> App.weights (app p) = criteria /\
  App.selectedStrategy (app p) ∈ strategyKeys ->
  captions <$> App.weights (app p') = criteria /\
  App.selectedStrategy (app p') ∈ strategyKeys.
Proof.
  intros H [Hw Hs]. apply dispatch_inv in H. destruct e; destruct H as [_ H].
  - destruct H as (st & Hk & ->). split; [exact Hw | by eapply strategy_offered].
  - destruct H as (w & _ & ->). split; [| exact Hs].
    cbn [updateApp commit app]. by rewrite captions_handleWeightChange.
  - by subst p'.
  - by subst p'.
  - destruct H as (sc & _ & ->). by split.
  - destruct H as (d & c & _ & _ & ->). by split.
Qed.

Lemma reachable_app_invariant p :
  reachable p ->
  captions <$> App.weights (app p) = criteria /\
  App.selectedStrategy (app p) ∈ strategyKeys.
Proof.
  induction 1 as [| p e p' _ IH Hstep].
  - split; [reflexivity | decide_by_computation].
  - by eapply dispatch_app_invariant.
Qed.

(** X8: the four sliders keep their ids and captions in the declared order
    (only values change), the selected strategy is always one of the five
    offered, and [ResultsScreen] is mounted exactly while [showResults] holds. *)
Theorem app_keeps_criteria_and_strategy (p : Program) :
  reachable p ->
  captions <$> App.weights (app p) = criteria /\
  App.selectedStrategy (app p) ∈ strategyKeys /\
  (App.showResults (app p) = true <-> is_Some (screen p)).
Proof.
  intros Hp. destruct (reachable_app_invariant p Hp) as [Hw Hs].
  split_all; try done. split.
  - intros Hshow. destruct (reachable_results p Hp Hshow) as (s & _ & _ & -> & _).
    by eexists.
  - intros [s Hscr]. destruct (reachable_coherent p Hp) as [_ Hc].
    destruct (App.showResults (app p)); [done | congruence].
Qed.

Lemma app_keeps_criteria_and_strategy_witness :
  reachable visited /\
  captions <$> App.weights (app visited) = criteria /\
  App.selectedStrategy (app visited) ∈ strategyKeys /\
  (App.showResults (app visited) = true <-> is_Some (screen visited)).
Proof.
  split; [apply reachable_visited |].
  exact (app_keeps_criteria_and_strategy visited reachable_visited).
Defined.

(** ** Which events a page accepts *)

Lemma lookup_bind_is_Some {A B} (l : list A) (k : nat) (f : A -> B) :
  is_Some (x ← l !! k; Some (f x)) <-> (k <? length l)%nat = true.
Proof.
  rewrite Nat.ltb_lt, <- lookup_lt_is_Some.
  destruct (l !! k) as [a |]; cbn.
  - split; intros _; [by exists a | by exists (f a)].
  - split; intros [? H]; discriminate H.
Qed.

Lemma dataset_length s d :
  ResultsScreen.scenarioData !! s = Some d -> length d = 6%nat.
Proof.
  intros H. apply scenarioData_codes in H. apply Permutation_length in H.
  by rewrite length_fmap in H.
Qed.

Lemma criteria_length ws : captions <$> ws = criteria -> length ws = 4%nat.
Proof. intros H. apply (f_equal length) in H. by rewrite length_fmap in H. Qed.

(** X7: a reachable page accepts exactly the events of the screen it shows,
    within the bounds of its lists: strategy buttons 0..4, sliders 0..3 and Run
    Analysis on the configuration screen; tabs 0..4, rows 0..5 and Back on the
    results screen.  Every other event finds no element. *)
Theorem dispatch_accepts_exactly_enabled (e : Event) (p : Program) :
  reachable p -> (is_Some (dispatch e p) <-> enabled e p = true).
Proof.
  intros Hp. destruct (App.showResults (app p)) eqn:Hshow.
  - destruct (reachable_results p Hp Hshow) as (s & d & w & Hscr & _ & Hd & _ & Hd' & Hw' & _).
    rewrite (dispatch_results e p s d w Hshow Hscr Hd' Hw').
    destruct e; cbn [enabled]; rewrite Hshow; cbn [negb andb].
    + split; [by intros [? ?] | discriminate].
    + split; [by intros [? ?] | discriminate].
    + split; [by intros [? ?] | discriminate].
    + split; [done | by eexists].
    + by rewrite lookup_bind_is_Some.
    + by rewrite lookup_bind_is_Some, (dataset_length _ _ Hd).
  - rewrite (dispatch_config e p Hshow).
    destruct (reachable_app_invariant p Hp) as [Hw _].
    destruct e; cbn [enabled]; rewrite Hshow; cbn [negb andb].
    + by rewrite lookup_bind_is_Some.
    + by rewrite lookup_bind_is_Some, (criteria_length _ Hw).
    + split; [done | by eexists].
    + split; [by intros [? ?] | discriminate].
    + split; [by intros [? ?] | discriminate].
    + split; [by intros [? ?] | discriminate].
Qed.

Lemma dispatch_accepts_exactly_enabled_witness :
  reachable visited /\
  (is_Some (dispatch (ClickRow 5) visited) <-> enabled (ClickRow 5) visited = true) /\
  enabled (ClickRow 5) visited = true /\
  (is_Some (dispatch (ClickRow 6) visited) <-> enabled (ClickRow 6) visited = true) /\
  enabled (ClickRow 6) visited = false.
Proof.
  split; [apply reachable_visited |].
  split; [exact (dispatch_accepts_exactly_enabled (ClickRow 5) visited reachable_visited) |].
  split; [vm_compute; reflexivity |].
  split; [exact (dispatch_accepts_exactly_enabled (ClickRow 6) visited reachable_visited) |].
  vm_compute; reflexivity.
Defined.

(** ** The sliders *)

(** X9: slider changes compose as assignments: a second change of the same
    weight overrides the first, and changes of different weights commute. *)
Theorem handleWeightChange_compose (i j : string) (v1 v2 : number) (a : App.State) :
  App.handleWeightChange i v2 (App.handleWeightChange i v1 a) =
    App.handleWeightChange i v2 a /\
  (i <> j ->
   App.handleWeightChange i v1 (App.handleWeightChange j v2 a) =
   App.handleWeightChange j v2 (App.handleWeightChange i v1 a)).
Proof.
  unfold App.handleWeightChange, App.setWeights; cbn. split.
  - f_equal. rewrite map_map. apply map_ext. intros w.
    destruct (String.eqb (WeightAdjuster.id w) i) eqn:E; cbn; by rewrite E.
  - intros Hij. f_equal. rewrite !map_map. apply map_ext. intros w.
    destruct (String.eqb_spec (WeightAdjuster.id w) i) as [Hi | Hi];
      destruct (String.eqb_spec (WeightAdjuster.id w) j) as [Hj | Hj]; cbn.
    + congruence.
    + destruct (String.eqb_spec (WeightAdjuster.id w) i); [| done].
      by destruct (String.eqb_spec (WeightAdjuster.id w) j).
    + destruct (String.eqb_spec (WeightAdjuster.id w) j); [| done].
      by destruct (String.eqb_spec (WeightAdjuster.id w) i).
    + destruct (String.eqb_spec (WeightAdjuster.id w) i); [done |].
      by destruct (String.eqb_spec (WeightAdjuster.id w) j).
Qed.

Lemma handleWeightChange_compose_witness :
  App.handleWeightChange "market" 40 (App.handleWeightChange "market" 30 App.initialState) =
    App.handleWeightChange "market" 40 App.initialState /\
  App.handleWeightChange "market" 30 (App.handleWeightChange "talent" 10 App.initialState) =
    App.handleWeightChange "talent" 10 (App.handleWeightChange "market" 30 App.initialState).
Proof.
  destruct (handleWeightChange_compose "market" "talent" 30 40 App.initialState)
    as [H1 _].
  destruct (handleWeightChange_compose "market" "talent" 30 10 App.initialState)
    as [_ H2].
  split; [exact H1 | apply H2; discriminate].
Defined.

(** With distinct ids the [map] of [handleWeightChange] is an update in place. *)
Lemma handleWeightChange_insert ws k w v :
  NoDup (WeightAdjuster.id <$> ws) -> ws !! k = Some w ->
  map (fun w' => if String.eqb (WeightAdjuster.id w') (WeightAdjuster.id w)
                 then App.withValue w' v else w') ws =
  <[k := App.withValue w v]> ws.
Proof.
  revert k. induction ws as [| w0 ws IH]; intros k Hnd Hk; [by rewrite lookup_nil in Hk |].
  rewrite fmap_cons in Hnd. apply NoDup_cons in Hnd as [Hnotin Hnd].
  destruct k as [| k]; cbn in Hk |- *.
  - injection Hk as ->. rewrite String.eqb_refl. f_equal.
    apply map_unchanged. intros w' Hw'.
    destruct (String.eqb_spec (WeightAdjuster.id w') (WeightAdjuster.id w)) as [E |]; [| done].
    exfalso. apply Hnotin. rewrite <- E. apply list_elem_of_fmap. by exists w'.
  - destruct (String.eqb_spec (WeightAdjuster.id w0) (WeightAdjuster.id w)) as [E |].
    + exfalso. apply Hnotin. rewrite E. apply list_elem_of_fmap. exists w.
      split; [done |]. by eapply list_elem_of_lookup_2.
    + f_equal. by apply IH.
Qed.

Lemma totalWeight_insert ws k w v :
  ws !! k = Some w ->
  totalWeight (<[k := App.withValue w v]> ws) ==
  totalWeight ws - WeightAdjuster.value w + v.
Proof.
  unfold totalWeight. revert k. induction ws as [| w0 ws IH]; intros k Hk;
    [by rewrite lookup_nil in Hk |].
  destruct k as [| k]; cbn in Hk |- *.
  - injection Hk as ->. ring.
  - rewrite (IH k Hk). ring.
Qed.

(** X10: the sliders are not normalised: with distinct ids, giving weight [w]
    the value [v] changes the sum of the values by exactly [v - value w]. *)
Theorem handleWeightChange_total
    (a : App.State) (k : nat) (w : WeightAdjuster.Weight) (v : number) :
  NoDup (WeightAdjuster.id <$> App.weights a) ->
  App.weights a !! k = Some w ->
  totalWeight (App.weights (App.handleWeightChange (WeightAdjuster.id w) v a)) ==
  totalWeight (App.weights a) - WeightAdjuster.value w + v.
Proof.
  intros Hnd Hk. cbn [App.handleWeightChange App.setWeights App.weights].
  rewrite (handleWeightChange_insert _ k w v Hnd Hk). by apply totalWeight_insert.
Qed.

Lemma handleWeightChange_total_witness :
  let w := {| WeightAdjuster.id := "market"; WeightAdjuster.label := "Market Size";
              WeightAdjuster.technicalLabel := "gdp_per_capita";
              WeightAdjuster.value := 25 |} in
  NoDup (WeightAdjuster.id <$> App.weights App.initialState) /\
  App.weights App.initialState !! 1%nat = Some w /\
  totalWeight (App.weights App.initialState) == 100 /\
  totalWeight (App.weights (App.handleWeightChange "market" 30 App.initialState)) == 105.
Proof.
  intros w.
  assert (Hnd : NoDup (WeightAdjuster.id <$> App.weights App.initialState))
    by decide_by_computation.
  split; [exact Hnd |]. split; [reflexivity |]. split; [reflexivity |].
  transitivity (totalWeight (App.weights App.initialState) - WeightAdjuster.value w + 30)%Q;
    [exact (handleWeightChange_total App.initialState 1 w 30 Hnd eq_refl) | reflexivity].
Defined.

Lemma reachable_slider_ids p :
  reachable p -> NoDup (WeightAdjuster.id <$> App.weights (app p)).
Proof.
  intros Hp. destruct (reachable_app_invariant p Hp) as [Hw _].
  assert (E : WeightAdjuster.id <$> App.weights (app p) = (fun t => t.1.1) <$> criteria).
  { rewrite <- Hw, <- list_fmap_compose. reflexivity. }
  rewrite E. decide_by_computation.
Qed.

(** X16: dragging the [k]-th slider to [v] replaces the value of the [k]-th
    weight and nothing else; the configuration screen then shows [v] on that
    slider and the old values on the others. *)
Theorem slider_sets_its_weight (p : Program) (k : nat) (v : number) :
  reachable p -> App.showResults (app p) = false -> (k < 4)%nat ->
  exists w p' c,
    App.weights (app p) !! k = Some w /\
    dispatch (SlideWeight k v) p = Some p' /\
    App.weights (app p') = <[k := App.withValue w v]> (App.weights (app p)) /\
    App.selectedStrategy (app p') = App.selectedStrategy (app p) /\
    render p' = Normal (App.ConfigScreen c) /\
    WeightAdjuster.sl_percent <$> App.cfg_sliders c =
      <[k := v]> (WeightAdjuster.value <$> App.weights (app p)) /\
    App.cfg_strategies c = StrategySelector.render (App.selectedStrategy (app p)).
Proof.
  intros Hp Hshow Hk. destruct (reachable_app_invariant p Hp) as [Hw _].
  destruct (lookup_lt_is_Some_2 (App.weights (app p)) k) as [w Hkw];
    [by rewrite (criteria_length _ Hw) |].
  pose proof (dispatch_config (SlideWeight k v) p Hshow) as Hd.
  lazy beta iota in Hd. rewrite Hkw in Hd. cbn [mbind option_bind] in Hd.
  assert (Hws : App.weights (App.handleWeightChange (WeightAdjuster.id w) v (app p)) =
                <[k := App.withValue w v]> (App.weights (app p))).
  { cbn [App.handleWeightChange App.setWeights App.weights].
    by apply handleWeightChange_insert; [apply reachable_slider_ids |]. }
  eexists w, _, _. split; [exact Hkw |]. split; [exact Hd |].
  split; [exact Hws |]. split; [reflexivity |].
  split; [by apply render_config |].
  cbn [App.cfg_sliders App.cfg_strategies]. split; [| reflexivity].
  unfold WeightAdjuster.render. change (map ?f ?l) with (f <$> l).
  rewrite <- list_fmap_compose.
  change (App.weights (app (updateApp _ p)))
    with (App.weights (App.handleWeightChange (WeightAdjuster.id w) v (app p))).
  rewrite Hws, list_fmap_insert. reflexivity.
Qed.

Lemma slider_sets_its_weight_witness :
  reachable initialProgram /\ App.showResults (app initialProgram) = false /\ (1 < 4)%nat /\
  exists w p' c,
    App.weights (app initialProgram) !! 1%nat = Some w /\
    dispatch (SlideWeight 1 30) initialProgram = Some p' /\
    App.weights (app p') = <[1%nat := App.withValue w 30]> (App.weights (app initialProgram)) /\
    App.selectedStrategy (app p') = App.selectedStrategy (app initialProgram) /\
    render p' = Normal (App.ConfigScreen c) /\
    WeightAdjuster.sl_percent <$> App.cfg_sliders c =
      <[1%nat := 30%Q]> (WeightAdjuster.value <$> App.weights (app initialProgram)) /\
    App.cfg_strategies c =
      StrategySelector.render (App.selectedStrategy (app initialProgram)).
Proof.
  split; [apply reachable_init |]. split; [reflexivity |]. split; [lia |].
  apply (slider_sets_its_weight initialProgram 1 30 reachable_init eq_refl). lia.
Defined.

(** ** The console *)

Lemma dispatch_console e p p' :
  dispatch e p = Some p' ->
  console p' =
  (console p ++ (if isRunAnalysis e then (App.handleRunAnalysis (app p)).1 else []))%list.
Proof.
  intros H. apply dispatch_inv in H. destruct e; destruct H as [_ H]; cbn [isRunAnalysis].
  - destruct H as (st & _ & ->). by rewrite app_nil_r.
  - destruct H as (w & _ & ->). by rewrite app_nil_r.
  - by subst p'.
  - subst p'. by rewrite app_nil_r.
  - destruct H as (sc & _ & ->). by rewrite app_nil_r.
  - destruct H as (d & c & _ & _ & ->). by rewrite app_nil_r.
Qed.

(** X11: only Run Analysis writes to the console, two entries per press, and
    nothing is ever removed: after any sequence of events the console starts
    with what it held and has grown by twice the number of Run Analysis
    presses. *)
Theorem console_grows_by_two_per_run (es : list Event) (p p' : Program) :
  run es p = Some p' ->
  console p `prefix_of` console p' /\
  length (console p') =
    (length (console p) + 2 * length (filter (fun e => isRunAnalysis e = true) es))%nat.
Proof.
  revert p. induction es as [| e es IH]; intros p; cbn [run].
  - intros [= <-]. split; [done | cbn; lia].
  - destruct (dispatch e p) as [q |] eqn:Hq; [| discriminate]. cbn [mbind option_bind].
    intros Hrun. destruct (IH q Hrun) as [Hpre Hlen].
    pose proof (dispatch_console e p q Hq) as Hc.
    split.
    + etransitivity; [| exact Hpre]. rewrite Hc. by apply prefix_app_r.
    + rewrite Hlen, Hc, length_app, filter_cons.
      destruct e; cbn [isRunAnalysis]; case_decide; try done; cbn; lia.
Qed.

Lemma console_grows_by_two_per_run_witness :
  let es := [SlideWeight 1 30; ClickStrategy 3; ClickRunAnalysis; ClickScenarioTab 4;
             ClickRow 3; ClickScenarioTab 0] in
  run es initialProgram = Some visited /\
  console initialProgram `prefix_of` console visited /\
  length (console visited) = 2%nat.
Proof.
  intros es.
  assert (H : run es initialProgram = Some visited)
    by (apply Some_default; decide_by_computation).
  split; [exact H |].
  exact (console_grows_by_two_per_run es initialProgram visited H).
Defined.

(** ** Entering and leaving the results screen *)

Lemma setShowResults_restore a b :
  App.showResults a = b ->
  App.setShowResults b (App.setShowResults (negb b) a) = a.
Proof. intros <-. by destruct a. Qed.

(** X5: Run Analysis followed by Back returns to the configuration screen as
    it was: same strategy, same slider values, same rendered content; only the
    console has the two new entries. *)
Theorem run_then_back_restores_configuration (p : Program) :
  reachable p -> App.showResults (app p) = false ->
  exists p',
    run [ClickRunAnalysis; ClickBack] p = Some p' /\
    app p' = app p /\ screen p' = screen p /\ tables p' = tables p /\
    render p' = render p /\
    console p' = (console p ++ (App.handleRunAnalysis (app p)).1)%list.
Proof.
  intros Hp Hshow. cbn [run]. rewrite (dispatch_config ClickRunAnalysis p Hshow).
  cbn [mbind option_bind]. set (p1 := updateApp _ _).
  assert (Hp1 : reachable p1).
  { apply (reachable_step p ClickRunAnalysis p1 Hp).
    by rewrite (dispatch_config ClickRunAnalysis p Hshow). }
  assert (Hshow1 : App.showResults (app p1) = true) by reflexivity.
  destruct (reachable_results p1 Hp1 Hshow1) as (s & d & w & Hscr & _ & _ & _ & Hd & Hw & _).
  rewrite (dispatch_results ClickBack p1 s d w Hshow1 Hscr Hd Hw).
  assert (Happ : app (updateApp (App.setShowResults false) p1) = app p).
  { cbn. pose proof (setShowResults_restore (app p) false Hshow) as E. exact E. }
  eexists. split; [reflexivity |]. split; [exact Happ |].
  destruct (reachable_coherent p Hp) as [_ Hc]. rewrite Hshow in Hc.
  split; [by rewrite Hc |]. split; [reflexivity |]. split; [| reflexivity].
  rewrite (render_config p Hshow). rewrite render_config by (by rewrite Happ).
  by rewrite Happ.
Qed.

Lemma run_then_back_restores_configuration_witness :
  reachable initialProgram /\ App.showResults (app initialProgram) = false /\
  exists p',
    run [ClickRunAnalysis; ClickBack] initialProgram = Some p' /\
    app p' = app initialProgram /\ screen p' = screen initialProgram /\
    tables p' = tables initialProgram /\
    render p' = render initialProgram /\
    console p' =
      (console initialProgram ++ (App.handleRunAnalysis (app initialProgram)).1)%list.
Proof.
  split; [apply reachable_init |]. split; [reflexivity |].
  exact (run_then_back_restores_configuration initialProgram reachable_init eq_refl).
Defined.

(** X6: the results screen does not remember its selection: Back followed by
    Run Analysis mounts it afresh on [talent-focused] and [USA], whatever
    scenario and country were selected before, and leaves the state of [App]
    as it was. *)
Theorem back_then_run_forgets_selection (p : Program) :
  reachable p -> App.showResults (app p) = true ->
  exists p',
    run [ClickBack; ClickRunAnalysis] p = Some p' /\
    screen p' = Some ResultsScreen.initialState /\
    app p' = app p /\ tables p' = tables p.
Proof.
  intros Hp Hshow.
  destruct (reachable_results p Hp Hshow) as (s & d & w & Hscr & _ & _ & _ & Hd & Hw & _).
  cbn [run]. rewrite (dispatch_results ClickBack p s d w Hshow Hscr Hd Hw).
  cbn [mbind option_bind]. set (p1 := updateApp _ p).
  assert (Hshow1 : App.showResults (app p1) = false) by reflexivity.
  rewrite (dispatch_config ClickRunAnalysis p1 Hshow1). cbn [mbind option_bind].
  eexists. split; [reflexivity |]. split; [reflexivity |]. split; [| reflexivity].
  cbn. exact (setShowResults_restore (app p) true Hshow).
Qed.

Lemma back_then_run_forgets_selection_witness :
  reachable visited /\ App.showResults (app visited) = true /\
  screen visited = Some {| ResultsScreen.selectedScenario := "balanced";
                           ResultsScreen.selectedCountry := Some "CAN" |} /\
  exists p',
    run [ClickBack; ClickRunAnalysis] visited = Some p' /\
    screen p' = Some ResultsScreen.initialState /\
    app p' = app visited /\ tables p' = tables visited.
Proof.
  assert (Hshow : App.showResults (app visited) = true) by (vm_compute; reflexivity).
  split; [apply reachable_visited |]. split; [exact Hshow |].
  split; [vm_compute; reflexivity |].
  exact (back_then_run_forgets_selection visited reachable_visited Hshow).
Defined.

(** ** React keys *)

(** X12: every list the page renders with [map] has pairwise distinct keys,
    in every state the page can reach. *)
Theorem rendered_keys_are_distinct (p : Program) :
  reachable p ->
  exists ks, keyedLists p = Normal ks /\ Forall (fun l => NoDup l) ks.
Proof.
  intros Hp. unfold keyedLists. destruct (App.showResults (app p)) eqn:Hshow.
  - destruct (reachable_results p Hp Hshow) as (s & d & w & Hscr & _ & Hd & _ & Hd' & Hw' & _).
    rewrite Hscr. change (default ResultsScreen.initialState (Some s)) with s.
    cbn zeta. rewrite Hd', Hw'. eexists. split; [reflexivity |].
    constructor; [decide_by_computation |]. constructor; [| constructor].
    unfold rowKeys. change (map ?f ?l) with (f <$> l).
    rewrite (scenarioData_codes _ _ Hd). decide_by_computation.
  - eexists. split; [reflexivity |].
    constructor; [decide_by_computation |]. constructor; [| constructor].
    by apply reachable_slider_ids.
Qed.

Lemma rendered_keys_are_distinct_witness :
  reachable visited /\
  exists ks, keyedLists visited = Normal ks /\ Forall (fun l => NoDup l) ks.
Proof.
  split; [apply reachable_visited |].
  exact (rendered_keys_are_distinct visited reachable_visited).
Defined.

(** ** Highlights and the detail card *)

Lemma eqb_unique_lookup {A} (key : A -> string) (l : list A) k j x y :
  NoDup (key <$> l) -> l !! k = Some x -> l !! j = Some y ->
  String.eqb (key x) (key y) = bool_decide (j = k).
Proof.
  intros Hnd Hk Hj. case_bool_decide as E.
  - subst j. assert (y = x) as -> by congruence. apply String.eqb_refl.
  - apply String.eqb_neq. intros Heq. apply E.
    eapply (NoDup_lookup (key <$> l)); [exact Hnd | |].
    + by rewrite list_lookup_fmap, Hj.
    + rewrite list_lookup_fmap, Hk. cbn. by rewrite Heq.
Qed.

Lemma dataset_NoDup s d :
  ResultsScreen.scenarioData !! s = Some d -> NoDup (iso <$> d).
Proof. intros H. rewrite (scenarioData_codes _ _ H). decide_by_computation. Qed.

Lemma find_at d k c :
  NoDup (iso <$> d) -> d !! k = Some c ->
  ResultsScreen.selectedCountryDetail d (Some (iso c)) = Some c.
Proof.
  intros Hnd Hk. apply find_first_match.
  exists (iso c), k. split_all; try done.
  intros j c' Hj Hc' Heq.
  pose proof (eqb_unique_lookup iso d k j c c' Hnd Hk Hc') as E.
  rewrite Heq, String.eqb_refl in E. symmetry in E. apply bool_decide_eq_true in E. lia.
Qed.

(** The record behind the selection of a reachable results screen. *)
Lemma reachable_selection p :
  reachable p -> App.showResults (app p) = true ->
  exists s d w kt sc kr c,
    screen p = Some s /\
    ResultsScreen.scenarioData !! ResultsScreen.selectedScenario s = Some d /\
    render p = Normal (App.ResultsView (ResultsScreen.content d w s)) /\
    ScenarioTabs.scenarios !! kt = Some sc /\
    ScenarioTabs.id sc = ResultsScreen.selectedScenario s /\
    d !! kr = Some c /\ ResultsScreen.selectedCountry s = Some (iso c) /\
    ResultsScreen.selectedCountryDetail d (ResultsScreen.selectedCountry s) = Some c.
Proof.
  intros Hp Hshow.
  destruct (reachable_results p Hp Hshow)
    as (s & d & w & Hscr & [Hsc (code & Hsel & Hcode)] & Hd & _ & _ & _ & Hr).
  unfold scenarioIds in Hsc. apply list_elem_of_lookup_1 in Hsc as [kt Hkt].
  apply list_lookup_fmap_Some in Hkt as (sc & Hid & Hkt).
  rewrite <- (scenarioData_codes _ _ Hd) in Hcode.
  apply list_elem_of_lookup_1 in Hcode as [kr Hkr].
  apply list_lookup_fmap_Some in Hkr as (c & -> & Hkr).
  exists s, d, w, kt, sc, kr, c. split_all; try done.
  rewrite Hsel. apply (find_at d kr c); [by eapply dataset_NoDup | done].
Qed.

(** X3: on every reachable results screen exactly one tab is active, the one
    of the scenario in the title; exactly one row is highlighted; and the
    detail card is never the placeholder but shows the country, rank and score
    of the highlighted row. *)
Theorem one_tab_one_row_one_card (p : Program) (v : ResultsScreen.View) :
  reachable p -> render p = Normal (App.ResultsView v) ->
  exists kt kr t r card,
    ResultsScreen.v_tabs v !! kt = Some t /\
    ResultsScreen.v_activeScenario v = replace "-" " " (ScenarioTabs.tab_onClick t) /\
    (forall j t', ResultsScreen.v_tabs v !! j = Some t' ->
                  ScenarioTabs.tab_active t' = bool_decide (j = kt)) /\
    ResultsScreen.v_table v !! kr = Some r /\
    (forall j r', ResultsScreen.v_table v !! j = Some r' ->
                  ResultsTable.row_selected r' = bool_decide (j = kr)) /\
    ResultsScreen.v_card v = CountryDetailCard.Details card /\
    CountryDetailCard.d_iso card = ResultsTable.row_iso r /\
    CountryDetailCard.d_heading card = ResultsTable.row_country r /\
    CountryDetailCard.d_rank card = ResultsTable.row_rank r /\
    CountryDetailCard.d_score card = ResultsTable.row_topsisScore r.
Proof.
  intros Hp Hr.
  assert (Hshow : App.showResults (app p) = true).
  { destruct (App.showResults (app p)) eqn:E; [done |].
    rewrite (render_config p E) in Hr. discriminate Hr. }
  destruct (reachable_selection p Hp Hshow)
    as (s & d & w & kt & sc & kr & c & Hscr & Hd & Hr' & Hkt & Hid & Hkr & Hsel & Hfind).
  rewrite Hr' in Hr. injection Hr as <-.
  cbn [ResultsScreen.content ResultsScreen.v_tabs ResultsScreen.v_table
       ResultsScreen.v_card ResultsScreen.v_activeScenario].
  rewrite Hfind. unfold ScenarioTabs.render, ResultsTable.render.
  eexists kt, kr, _, _, _. rewrite !lookup_map, Hkt, Hkr.
  split; [reflexivity |]. split; [cbn; by rewrite Hid |].
  split.
  { intros j t'. rewrite lookup_map. destruct (ScenarioTabs.scenarios !! j) as [sc' |] eqn:Hj;
      [| discriminate]. intros [= <-]. cbn. rewrite <- Hid.
    apply (eqb_unique_lookup ScenarioTabs.id ScenarioTabs.scenarios kt j sc sc');
      [decide_by_computation | done | done]. }
  split; [reflexivity |]. split.
  { intros j r'. rewrite lookup_map. destruct (d !! j) as [c' |] eqn:Hj; [| discriminate].
    intros [= <-]. cbn. rewrite Hsel. cbn.
    apply (eqb_unique_lookup iso d kr j c c'); [by eapply dataset_NoDup | done | done]. }
  by split_all.
Qed.

Lemma one_tab_one_row_one_card_witness :
  exists v, render visited = Normal (App.ResultsView v) /\ reachable visited /\
  exists kt kr t r card,
    ResultsScreen.v_tabs v !! kt = Some t /\
    ResultsScreen.v_activeScenario v = replace "-" " " (ScenarioTabs.tab_onClick t) /\
    (forall j t', ResultsScreen.v_tabs v !! j = Some t' ->
                  ScenarioTabs.tab_active t' = bool_decide (j = kt)) /\
    ResultsScreen.v_table v !! kr = Some r /\
    (forall j r', ResultsScreen.v_table v !! j = Some r' ->
                  ResultsTable.row_selected r' = bool_decide (j = kr)) /\
    ResultsScreen.v_card v = CountryDetailCard.Details card /\
    CountryDetailCard.d_iso card = ResultsTable.row_iso r /\
    CountryDetailCard.d_heading card = ResultsTable.row_country r /\
    CountryDetailCard.d_rank card = ResultsTable.row_rank r /\
    CountryDetailCard.d_score card = ResultsTable.row_topsisScore r.
Proof.
  assert (Hshow : App.showResults (app visited) = true) by (vm_compute; reflexivity).
  destruct (reachable_results visited reachable_visited Hshow)
    as (s & d & w & _ & _ & _ & _ & _ & _ & Hr).
  eexists. split; [exact Hr |]. split; [apply reachable_visited |].
  exact (one_tab_one_row_one_card visited _ reachable_visited Hr).
Defined.

Lemma mounted_shows_results p :
  reachable p -> is_Some (screen p) -> App.showResults (app p) = true.
Proof.
  intros Hp [s Hscr]. destruct (reachable_coherent p Hp) as [_ Hc].
  destruct (App.showResults (app p)); [done | congruence].
Qed.

(** X2: clicking the [k]-th row selects the country of that row: the scenario
    stays, the detail card becomes the card of the record at position [k] of
    the current dataset, and that row is the only one highlighted. *)
Theorem row_click_shows_its_record
    (p : Program) (k : nat) (s : ResultsScreen.State)
    (d : list CountryResult) (c : CountryResult) :
  reachable p -> screen p = Some s ->
  ResultsScreen.scenarioData !! ResultsScreen.selectedScenario s = Some d ->
  d !! k = Some c ->
  exists p' v,
    dispatch (ClickRow k) p = Some p' /\
    screen p' = Some {| ResultsScreen.selectedScenario := ResultsScreen.selectedScenario s;
                        ResultsScreen.selectedCountry := Some (iso c) |} /\
    render p' = Normal (App.ResultsView v) /\
    ResultsScreen.v_card v = CountryDetailCard.render (Some c) /\
    ResultsScreen.v_tabs v = ScenarioTabs.render (ResultsScreen.selectedScenario s) /\
    (forall j r, ResultsScreen.v_table v !! j = Some r ->
                 ResultsTable.row_selected r = bool_decide (j = k)).
Proof.
  intros Hp Hscr Hd Hk.
  assert (Hshow : App.showResults (app p) = true).
  { apply (mounted_shows_results p Hp). by eexists. }
  destruct (reachable_results p Hp Hshow)
    as (s0 & d0 & w & Hscr0 & _ & Hd0 & Hw0 & Hd' & Hw' & _).
  assert (s0 = s) as -> by congruence. assert (d0 = d) as -> by congruence.
  pose proof (dispatch_results (ClickRow k) p s d w Hshow Hscr Hd' Hw') as Hstep.
  lazy beta iota in Hstep. rewrite Hk in Hstep. cbn [mbind option_bind] in Hstep.
  set (p' := updateScreen _ p) in Hstep.
  assert (Hscr' : screen p' = Some (ResultsScreen.setSelectedCountry (iso c) s))
    by (unfold p'; cbn; by rewrite Hscr).
  assert (Hr' : render p' =
                Normal (App.ResultsView
                          (ResultsScreen.content d w
                             (ResultsScreen.setSelectedCountry (iso c) s)))).
  { rewrite (render_results p' Hshow), Hscr'.
    change (default ResultsScreen.initialState (Some ?x)) with x.
    by rewrite (render_content (tables p') (ResultsScreen.setSelectedCountry (iso c) s)
                  d w Hd' Hw'). }
  exists p', (ResultsScreen.content d w (ResultsScreen.setSelectedCountry (iso c) s)).
  split; [exact Hstep |]. split; [exact Hscr' |]. split; [exact Hr' |].
  cbn [ResultsScreen.content ResultsScreen.v_card ResultsScreen.v_tabs
       ResultsScreen.v_table ResultsScreen.setSelectedCountry
       ResultsScreen.selectedCountry ResultsScreen.selectedScenario].
  split; [by rewrite (find_at d k c (dataset_NoDup _ _ Hd) Hk) |]. split; [reflexivity |].
  intros j r. unfold ResultsTable.render. rewrite lookup_map.
  destruct (d !! j) as [c' |] eqn:Hj; [| discriminate]. intros [= <-]. cbn.
  apply (eqb_unique_lookup iso d k j c c'); [by eapply dataset_NoDup | done | done].
Qed.

Lemma row_click_shows_its_record_witness :
  let s := {| ResultsScreen.selectedScenario := "balanced";
              ResultsScreen.selectedCountry := Some "CAN" |} in
  let d := default [] (ResultsScreen.scenarioData !! "balanced") in
  let c := default blankRecord (d !! 4%nat) in
  reachable visited /\ screen visited = Some s /\
  ResultsScreen.scenarioData !! ResultsScreen.selectedScenario s = Some d /\
  d !! 4%nat = Some c /\ iso c = "DEU" /\
  exists p' v,
    dispatch (ClickRow 4) visited = Some p' /\
    screen p' = Some {| ResultsScreen.selectedScenario := "balanced";
                        ResultsScreen.selectedCountry := Some "DEU" |} /\
    render p' = Normal (App.ResultsView v) /\
    ResultsScreen.v_card v = CountryDetailCard.render (Some c) /\
    ResultsScreen.v_tabs v = ScenarioTabs.render "balanced" /\
    (forall j r, ResultsScreen.v_table v !! j = Some r ->
                 ResultsTable.row_selected r = bool_decide (j = 4%nat)).
Proof.
  intros s d c.
  assert (Hscr : screen visited = Some s) by (vm_compute; reflexivity).
  assert (Hd : ResultsScreen.scenarioData !! ResultsScreen.selectedScenario s = Some d)
    by (vm_compute; reflexivity).
  assert (Hk : d !! 4%nat = Some c) by (vm_compute; reflexivity).
  split; [apply reachable_visited |]. split; [exact Hscr |]. split; [exact Hd |].
  split; [exact Hk |]. split; [vm_compute; reflexivity |].
  exact (row_click_shows_its_record visited 4 s d c reachable_visited Hscr Hd Hk).
Defined.

(** ** Switching scenarios *)

(** Name and indicator values of a record are those of the record with its
    code in [balanced]. *)
Lemma profile_by_country s d c :
  ResultsScreen.scenarioData !! s = Some d -> c ∈ d ->
  Some (country c, scores c) =
  (fun c0 => (country c0, scores c0)) <$>
    List.find (fun c0 => String.eqb (iso c0) (iso c))
              (default [] (ResultsScreen.scenarioData !! "balanced")).
Proof.
  intros H Hc. unfold ResultsScreen.scenarioData in H. table_cases H.
  all: list_cases Hc; subst c; vm_compute; reflexivity.
Qed.

Lemma indicators_by_profile c1 c2 card1 card2 :
  iso c1 = iso c2 -> country c1 = country c2 -> scores c1 = scores c2 ->
  CountryDetailCard.render (Some c1) = CountryDetailCard.Details card1 ->
  CountryDetailCard.render (Some c2) = CountryDetailCard.Details card2 ->
  indicators card1 = indicators card2.
Proof.
  intros Hiso Hname Hscores [= <-] [= <-]. unfold scores in Hscores.
  injection Hscores as Hrc Hgdp Hinfra Hjob. unfold indicators. cbn.
  by rewrite Hiso, Hname, Hrc, Hgdp, Hinfra, Hjob.
Qed.

(** X4: switching the scenario keeps the selected country: the new detail card
    is again a country card, with the same code, name, radar chart and the
    same four indicator texts; only rank, score and description may change. *)
Theorem scenario_switch_keeps_country
    (p p' : Program) (k : nat) (v v' : ResultsScreen.View)
    (card : CountryDetailCard.Detail) :
  reachable p -> render p = Normal (App.ResultsView v) ->
  ResultsScreen.v_card v = CountryDetailCard.Details card ->
  dispatch (ClickScenarioTab k) p = Some p' ->
  render p' = Normal (App.ResultsView v') ->
  exists card',
    ResultsScreen.v_card v' = CountryDetailCard.Details card' /\
    indicators card' = indicators card /\
    ResultsScreen.selectedCountry <$> screen p' = ResultsScreen.selectedCountry <$> screen p.
Proof.
  intros Hp Hr Hcard Hstep Hr'.
  assert (Hp' : reachable p') by (by eapply reachable_step).
  apply dispatch_inv in Hstep as [Hshow (sc & _ & Hp'eq)].
  assert (Hshow' : App.showResults (app p') = true) by (by subst p').
  destruct (reachable_selection p Hp Hshow)
    as (s & d & w & _ & _ & kr & c & Hscr & Hd & Hrp & _ & _ & Hk & Hsel & Hfind).
  destruct (reachable_selection p' Hp' Hshow')
    as (s' & d' & w' & _ & _ & kr' & c' & Hscr' & Hd' & Hrp' & _ & _ & Hk' & Hsel' & Hfind').
  rewrite Hrp in Hr. injection Hr as <-. rewrite Hrp' in Hr'. injection Hr' as <-.
  cbn [ResultsScreen.content ResultsScreen.v_card] in Hcard |- *.
  rewrite Hfind in Hcard. rewrite Hfind'.
  assert (Hsame : ResultsScreen.selectedCountry s' = ResultsScreen.selectedCountry s).
  { subst p'. cbn in Hscr'. rewrite Hscr in Hscr'. by injection Hscr' as <-. }
  assert (Hiso : iso c' = iso c) by congruence.
  assert (Hin : c ∈ d) by (by eapply list_elem_of_lookup_2).
  assert (Hin' : c' ∈ d') by (by eapply list_elem_of_lookup_2).
  pose proof (profile_by_country _ _ _ Hd Hin) as E.
  pose proof (profile_by_country _ _ _ Hd' Hin') as E'.
  rewrite Hiso in E'. rewrite <- E in E'.
  assert (Hname : country c' = country c) by congruence.
  assert (Hscores : scores c' = scores c) by congruence.
  eexists. split; [reflexivity |]. split.
  - exact (indicators_by_profile c' c _ card Hiso Hname Hscores eq_refl Hcard).
  - rewrite Hscr, Hscr'. cbn. by rewrite Hsame.
Qed.

Lemma scenario_switch_keeps_country_witness :
  let p' := default visited (dispatch (ClickScenarioTab 4) visited) in
  exists v v' card,
    reachable visited /\ render visited = Normal (App.ResultsView v) /\
    ResultsScreen.v_card v = CountryDetailCard.Details card /\
    dispatch (ClickScenarioTab 4) visited = Some p' /\
    render p' = Normal (App.ResultsView v') /\
    exists card',
      ResultsScreen.v_card v' = CountryDetailCard.Details card' /\
      indicators card' = indicators card /\
      ResultsScreen.selectedCountry <$> screen p' =
      ResultsScreen.selectedCountry <$> screen visited.
Proof.
  intros p'.
  assert (Hstep : dispatch (ClickScenarioTab 4) visited = Some p')
    by (apply Some_default; decide_by_computation).
  assert (Hshow : App.showResults (app visited) = true) by (vm_compute; reflexivity).
  assert (Hp' : reachable p') by (by eapply reachable_step; [apply reachable_visited |]).
  assert (Hshow' : App.showResults (app p') = true) by (vm_compute; reflexivity).
  destruct (reachable_selection visited reachable_visited Hshow)
    as (s & d & w & _ & _ & _ & c & _ & _ & Hr & _ & _ & _ & _ & Hfind).
  destruct (reachable_selection p' Hp' Hshow')
    as (s' & d' & w' & _ & _ & _ & c' & _ & _ & Hr' & _).
  eexists _, _, _. split; [apply reachable_visited |]. split; [exact Hr |].
  split; [cbn [ResultsScreen.content ResultsScreen.v_card]; rewrite Hfind; reflexivity |].
  split; [exact Hstep |]. split; [exact Hr' |].
  eapply (scenario_switch_keeps_country visited p' 4 _ _ _ reachable_visited Hr);
    [| exact Hstep | exact Hr'].
  cbn [ResultsScreen.content ResultsScreen.v_card]. rewrite Hfind. reflexivity.
Defined.

(** ** Medals and the radar chart *)

Lemma badges_of_dataset s d sel :
  ResultsScreen.scenarioData !! s = Some d ->
  ResultsTable.row_badge <$> ResultsTable.render d sel =
    [ResultsTable.Gold; ResultsTable.Silver; ResultsTable.Bronze;
     ResultsTable.Plain; ResultsTable.Plain; ResultsTable.Plain] /\
  ResultsTable.row_rank <$> ResultsTable.render d sel = [1; 2; 3; 4; 5; 6]%Q.
Proof.
  intros Hd. unfold ResultsScreen.scenarioData in Hd. table_cases Hd.
  all: split; reflexivity.
Qed.

(** X13: on every reachable results screen the first three rows carry the
    gold, silver and bronze badges and the other three the plain one, and the
    rank column reads 1 to 6. *)
Theorem top_three_rows_carry_medals (p : Program) (v : ResultsScreen.View) :
  reachable p -> render p = Normal (App.ResultsView v) ->
  ResultsTable.row_badge <$> ResultsScreen.v_table v =
    [ResultsTable.Gold; ResultsTable.Silver; ResultsTable.Bronze;
     ResultsTable.Plain; ResultsTable.Plain; ResultsTable.Plain] /\
  ResultsTable.row_rank <$> ResultsScreen.v_table v = [1; 2; 3; 4; 5; 6]%Q.
Proof.
  intros Hp Hr.
  assert (Hshow : App.showResults (app p) = true).
  { destruct (App.showResults (app p)) eqn:E; [done |].
    rewrite (render_config p E) in Hr. discriminate Hr. }
  destruct (reachable_results p Hp Hshow) as (s & d & w & _ & _ & Hd & _ & _ & _ & Hr').
  rewrite Hr' in Hr. injection Hr as <-. cbn [ResultsScreen.content ResultsScreen.v_table].
  by eapply badges_of_dataset.
Qed.

Lemma top_three_rows_carry_medals_witness :
  exists v, reachable visited /\ render visited = Normal (App.ResultsView v) /\
    ResultsTable.row_badge <$> ResultsScreen.v_table v =
      [ResultsTable.Gold; ResultsTable.Silver; ResultsTable.Bronze;
       ResultsTable.Plain; ResultsTable.Plain; ResultsTable.Plain] /\
    ResultsTable.row_rank <$> ResultsScreen.v_table v = [1; 2; 3; 4; 5; 6]%Q.
Proof.
  assert (Hshow : App.showResults (app visited) = true) by (vm_compute; reflexivity).
  destruct (reachable_results visited reachable_visited Hshow)
    as (s & d & w & _ & _ & _ & _ & _ & _ & Hr).
  eexists. split; [apply reachable_visited |]. split; [exact Hr |].
  exact (top_three_rows_carry_medals visited _ reachable_visited Hr).
Defined.

Lemma radar_within_domain s d c card :
  ResultsScreen.scenarioData !! s = Some d -> c ∈ d ->
  CountryDetailCard.render (Some c) = CountryDetailCard.Details card ->
  CountryDetailCard.metric <$> CountryDetailCard.d_radarData card =
    ["RC Score"; "GDP/Capita"; "Digital Infra"; "Job Market"] /\
  Forall (fun r => (0 <= CountryDetailCard.value r)%Q /\
                   (CountryDetailCard.value r <= CountryDetailCard.fullMark r)%Q /\
                   CountryDetailCard.fullMark r = 100%Q)
         (CountryDetailCard.d_radarData card).
Proof.
  intros H Hc [= <-]. split; [reflexivity |].
  unfold ResultsScreen.scenarioData in H. table_cases H.
  all: list_cases Hc; subst c; cbn [CountryDetailCard.d_radarData].
  all: repeat (apply List.Forall_cons; [split_all; [discriminate | discriminate | reflexivity] |]).
  all: apply List.Forall_nil.
Qed.

(** X14: the radar chart of every reachable detail card has the four axes in
    the declared order, and every plotted value lies inside the chart's domain
    from 0 to its full mark of 100 (GDP per capita being divided by 1000). *)
Theorem radar_values_fit_the_chart (p : Program) (v : ResultsScreen.View) :
  reachable p -> render p = Normal (App.ResultsView v) ->
  exists card,
    ResultsScreen.v_card v = CountryDetailCard.Details card /\
    CountryDetailCard.metric <$> CountryDetailCard.d_radarData card =
      ["RC Score"; "GDP/Capita"; "Digital Infra"; "Job Market"] /\
    Forall (fun r => (0 <= CountryDetailCard.value r)%Q /\
                     (CountryDetailCard.value r <= CountryDetailCard.fullMark r)%Q /\
                     CountryDetailCard.fullMark r = 100%Q)
           (CountryDetailCard.d_radarData card).
Proof.
  intros Hp Hr.
  assert (Hshow : App.showResults (app p) = true).
  { destruct (App.showResults (app p)) eqn:E; [done |].
    rewrite (render_config p E) in Hr. discriminate Hr. }
  destruct (reachable_selection p Hp Hshow)
    as (s & d & w & _ & _ & kr & c & _ & Hd & Hr' & _ & _ & Hk & _ & Hfind).
  rewrite Hr' in Hr. injection Hr as <-. cbn [ResultsScreen.content ResultsScreen.v_card].
  rewrite Hfind. eexists. split; [reflexivity |].
  eapply radar_within_domain; [exact Hd | by eapply list_elem_of_lookup_2 | reflexivity].
Qed.

Lemma radar_values_fit_the_chart_witness :
  exists v, reachable visited /\ render visited = Normal (App.ResultsView v) /\
  exists card,
    ResultsScreen.v_card v = CountryDetailCard.Details card /\
    CountryDetailCard.metric <$> CountryDetailCard.d_radarData card =
      ["RC Score"; "GDP/Capita"; "Digital Infra"; "Job Market"] /\
    Forall (fun r => (0 <= CountryDetailCard.value r)%Q /\
                     (CountryDetailCard.value r <= CountryDetailCard.fullMark r)%Q /\
                     CountryDetailCard.fullMark r = 100%Q)
           (CountryDetailCard.d_radarData card).
Proof.
  assert (Hshow : App.showResults (app visited) = true) by (vm_compute; reflexivity).
  destruct (reachable_results visited reachable_visited Hshow)
    as (s & d & w & _ & _ & _ & _ & _ & _ & Hr).
  eexists. split; [apply reachable_visited |]. split; [exact Hr |].
  exact (radar_values_fit_the_chart visited _ reachable_visited Hr).
Defined.

(** ** Choosing a strategy *)

(** X17: pressing the [k]-th strategy button selects that strategy and
    highlights that button only; the sliders keep their values (a strategy
    does not preset the weights). *)
Theorem strategy_click_selects_only_it (p : Program) (k : nat) :
  reachable p -> App.showResults (app p) = false -> (k < 5)%nat ->
  exists st p' c,
    StrategySelector.strategies !! k = Some st /\
    dispatch (ClickStrategy k) p = Some p' /\
    App.selectedStrategy (app p') = StrategySelector.id st /\
    App.weights (app p') = App.weights (app p) /\
    render p' = Normal (App.ConfigScreen c) /\
    (forall j ch, App.cfg_strategies c !! j = Some ch ->
                  StrategySelector.opt_selected ch = bool_decide (j = k)) /\
    App.cfg_sliders c = WeightAdjuster.render (App.weights (app p)).
Proof.
  intros Hp Hshow Hk.
  destruct (lookup_lt_is_Some_2 StrategySelector.strategies k) as [st Hst]; [exact Hk |].
  pose proof (dispatch_config (ClickStrategy k) p Hshow) as Hd.
  lazy beta iota in Hd. rewrite Hst in Hd. cbn [mbind option_bind] in Hd.
  eexists st, _, _. split; [exact Hst |]. split; [exact Hd |].
  split; [reflexivity |]. split; [reflexivity |].
  split; [by apply render_config |].
  cbn [App.cfg_strategies App.cfg_sliders]. split; [| reflexivity].
  intros j ch. unfold StrategySelector.render. rewrite lookup_map.
  destruct (StrategySelector.strategies !! j) as [st' |] eqn:Hj; [| discriminate].
  intros [= <-]. cbn.
  apply (eqb_unique_lookup StrategySelector.id StrategySelector.strategies k j st st');
    [decide_by_computation | done | done].
Qed.

Lemma strategy_click_selects_only_it_witness :
  reachable initialProgram /\ App.showResults (app initialProgram) = false /\ (3 < 5)%nat /\
  exists st p' c,
    StrategySelector.strategies !! 3%nat = Some st /\
    dispatch (ClickStrategy 3) initialProgram = Some p' /\
    App.selectedStrategy (app p') = StrategySelector.id st /\
    App.weights (app p') = App.weights (app initialProgram) /\
    render p' = Normal (App.ConfigScreen c) /\
    (forall j ch, App.cfg_strategies c !! j = Some ch ->
                  StrategySelector.opt_selected ch = bool_decide (j = 3%nat)) /\
    App.cfg_sliders c = WeightAdjuster.render (App.weights (app initialProgram)).
Proof.
  split; [apply reachable_init |]. split; [reflexivity |]. split; [lia |].
  apply (strategy_click_selects_only_it initialProgram 3 reachable_init eq_refl). lia.
Defined.

(** ** CountryMap *)

(** X15: [CountryMap] renders one tile per entry of [countries], in the stored
    order, which is by strictly decreasing score; the tiles have distinct keys
    and every score bar is between 0 and 100 percent of its track. *)
Theorem countryMap_tiles :
  CountryMap.tile_name <$> CountryMap.render = CountryMap.name <$> CountryMap.countries /\
  length CountryMap.render = 12%nat /\
  NoDup (CountryMap.tile_key <$> CountryMap.render) /\
  StronglySorted (fun a b => (CountryMap.tile_score b < CountryMap.tile_score a)%Q)
                 CountryMap.render /\
  Forall (fun t => (0 <= CountryMap.tile_barPercent t)%Q /\
                   (CountryMap.tile_barPercent t <= 100)%Q /\
                   CountryMap.tile_barPercent t = CountryMap.tile_score t)
         CountryMap.render.
Proof.
  split; [reflexivity |]. split; [reflexivity |]. split; [decide_by_computation |].
  split.
  - unfold CountryMap.render. cbn [map CountryMap.countries].
    repeat (apply SSorted_cons;
            [| repeat (apply List.Forall_cons; [reflexivity |]); apply List.Forall_nil]).
    apply SSorted_nil.
  - unfold CountryMap.render. cbn [map CountryMap.countries].
    repeat (apply List.Forall_cons; [split_all; [discriminate | discriminate | reflexivity] |]).
    apply List.Forall_nil.
Qed.

(** ** Scenarios without data *)

(** X18: the lookups of [ResultsScreen] are unguarded: rendering throws
    exactly when the selected scenario is missing from [scenarioData] or from
    [scenarioWeights], whatever the selected country. *)
Theorem render_throws_iff_scenario_missing
    (t : ResultsScreen.Tables) (s : ResultsScreen.State) :
  ResultsScreen.render t s = ThrowTypeError <->
  ResultsScreen.tbl_scenarioData t !! ResultsScreen.selectedScenario s = None \/
  ResultsScreen.tbl_scenarioWeights t !! ResultsScreen.selectedScenario s = None.
Proof.
  unfold ResultsScreen.render.
  destruct (ResultsScreen.tbl_scenarioData t !! _) as [d |];
    destruct (ResultsScreen.tbl_scenarioWeights t !! _) as [w |]; cbn.
  - split; [discriminate | by intros [? | ?]].
  - split; [by right | done].
  - split; [by left | done].
  - split; [by left | done].
Qed.

Lemma render_throws_iff_scenario_missing_witness :
  let s := {| ResultsScreen.selectedScenario := "cost-focused";
              ResultsScreen.selectedCountry := Some "USA" |} in
  ResultsScreen.tbl_scenarioData ResultsScreen.tables !!
    ResultsScreen.selectedScenario s = None /\
  ResultsScreen.render ResultsScreen.tables s = ThrowTypeError.
Proof.
  intros s.
  assert (H : ResultsScreen.tbl_scenarioData ResultsScreen.tables !!
                ResultsScreen.selectedScenario s = None) by (vm_compute; reflexivity).
  split; [exact H |].
  apply (render_throws_iff_scenario_missing ResultsScreen.tables s). by left.
Defined.

(** X19: every strategy that can be selected on the configuration screen has
    a dataset and a weight quadruple: in every reachable state the selected
    strategy is a key of both tables, and rendering the results screen on it
    would not throw. *)
Theorem selected_strategy_has_tables (p : Program) :
  reachable p ->
  is_Some (ResultsScreen.tbl_scenarioData (tables p) !! App.selectedStrategy (app p)) /\
  is_Some (ResultsScreen.tbl_scenarioWeights (tables p) !! App.selectedStrategy (app p)) /\
  forall sel, exists v,
    ResultsScreen.render (tables p)
      {| ResultsScreen.selectedScenario := App.selectedStrategy (app p);
         ResultsScreen.selectedCountry := sel |} = Normal v.
Proof.
  intros Hp. destruct (reachable_app_invariant p Hp) as [_ Hs].
  destruct (reachable_coherent p Hp) as [Ht _]. rewrite Ht.
  change strategyKeys with scenarioIds in Hs.
  destruct (scenarioData_defined _ Hs) as [d Hd].
  destruct (scenarioWeights_defined _ Hs) as [w Hw].
  split; [by exists d |]. split; [by exists w |].
  intros sel. eexists. by apply (render_content _ _ d w).
Qed.

Lemma selected_strategy_has_tables_witness :
  reachable visited /\ App.selectedStrategy (app visited) = "market-focused" /\
  is_Some (ResultsScreen.tbl_scenarioData (tables visited) !! "market-focused") /\
  is_Some (ResultsScreen.tbl_scenarioWeights (tables visited) !! "market-focused").
Proof.
  assert (Hst : App.selectedStrategy (app visited) = "market-focused")
    by (vm_compute; reflexivity).
  destruct (selected_strategy_has_tables visited reachable_visited) as (Hd & Hw & _).
  rewrite Hst in Hd, Hw.
  split; [apply reachable_visited |]. by split_all.
Defined.
